(** * claude-code-discord-agent: the mention-to-reply pipeline

    A shallow embedding of [src/claude_code_discord_agent/main.py]:
    [ClaudeDiscordBot.__init__], [ClaudeDiscordBot.on_message],
    [ClaudeDiscordBot.handle_mention], [setup_logging], [load_config] and
    [main], with the Python values, string operations and [json.dumps]
    rendering they rely on.

    Conventions.
    - A Python [str] is a [string]; one [ascii] stands for one character
      (code points 0..255), so [String.length] is Python's [len].
    - Values loaded from YAML or JSON ([dict], [list], [str], [int],
      [float], [bool], [None]) are the inductive [pyval].  The program
      never computes with a float, it only tests and prints it, so a
      float is identified by its [repr]: the shortest decimal text that
      reads back as the same float.
    - A [dict] is an association list in insertion order; lookup takes the
      first binding of a key.
    - Effects (log records, the typing indicator, the assistant query, the
      replies) are recorded in order in a trace; exceptions are values.
    - The messaging platform accepts every send, and the assistant backend
      is a finite stream of events that ends normally or by raising.
    - Library code the program calls (the [logging] module, the YAML
      parser, the framework's command dispatcher) is a parameter or a
      named hand-over, never a guess about what the library does. *)

From Stdlib Require Import String Ascii List ZArith Bool Lia.
From Stdlib Require Import DecimalString.
Import ListNotations.
Local Open Scope list_scope.
Local Open Scope string_scope.

Set Warnings "-register-all".

(** ** Python values *)

Inductive pyval : Type :=
| VNone : pyval
| VBool : bool -> pyval
| VInt : Z -> pyval
| VStr : string -> pyval
| VList : list pyval -> pyval
| VDict : list (string * pyval) -> pyval
| VFloat : string -> pyval.

(** A [dict] with [str] keys, in insertion order. *)
Definition pydict : Type := list (string * pyval).

(** [d.get(k)] on a dict: [None] when the key is absent. *)
Fixpoint dict_get (k : string) (d : pydict) : option pyval :=
  match d with
  | [] => None
  | (k', v) :: d' => if String.eqb k k' then Some v else dict_get k d'
  end.

(** Python truthiness of a value ([if not config], [if not token]). *)
Definition truthy (v : pyval) : bool :=
  match v with
  | VNone => false
  | VBool b => b
  | VInt z => negb (Z.eqb z 0)
  | VStr s => negb (String.eqb s "")
  | VList l => match l with [] => false | _ => true end
  | VDict d => match d with [] => false | _ => true end
  | VFloat r => negb (String.eqb r "0.0" || String.eqb r "-0.0")
  end.

(** ** Exceptions *)

(** A raised [Exception]: a plain exception with its class name and
    message, or an [ExceptionGroup] with its members.  Errors that do not
    derive from [Exception] (cancellation, keyboard interrupt) are not
    caught by [except* Exception] and are outside the model. *)
Inductive exc : Type :=
| Exc : string -> string -> exc
| ExcGroup : list exc -> exc.

Definition KeyError (k : string) : exc := Exc "KeyError" k.
Definition TypeError (m : string) : exc := Exc "TypeError" m.
Definition AttributeError (m : string) : exc := Exc "AttributeError" m.

Definition result (A : Type) : Type := (exc + A)%type.

(** [v[k]] with a [str] key: only a dict can be indexed that way. *)
Definition subscript (v : pyval) (k : string) : result pyval :=
  match v with
  | VDict d =>
      match dict_get k d with
      | Some x => inr x
      | None => inl (KeyError k)
      end
  | _ => inl (TypeError "subscript")
  end.

(** [v.get(k)]: only a dict has [get]. *)
Definition method_get (v : pyval) (k : string) : result pyval :=
  match v with
  | VDict d =>
      match dict_get k d with
      | Some x => inr x
      | None => inr VNone
      end
  | _ => inl (AttributeError "get")
  end.

(** ** Strings *)

Definition nl : string := String (ascii_of_nat 10) "".

(** [sep.join(parts)]. *)
Fixpoint join (sep : string) (parts : list string) : string :=
  match parts with
  | [] => ""
  | [p] => p
  | p :: ps => p ++ sep ++ join sep ps
  end.

(** Iterating a [str] yields its characters as one-character strings. *)
Fixpoint chars (s : string) : list string :=
  match s with
  | EmptyString => []
  | String c s' => String c "" :: chars s'
  end.

(** [str(n)] for an [int]. *)
Definition str_of_int (z : Z) : string :=
  NilZero.string_of_int (Z.to_int z).

(** [str.isspace] on one character (code points below 256). *)
Definition is_space (c : ascii) : bool :=
  let n := nat_of_ascii c in
  (((9 <=? n) && (n <=? 13)) || ((28 <=? n) && (n <=? 32))
   || (n =? 133) || (n =? 160))%nat.

Fixpoint lstrip (s : string) : string :=
  match s with
  | EmptyString => ""
  | String c s' => if is_space c then lstrip s' else s
  end.

Fixpoint rstrip (s : string) : string :=
  match s with
  | EmptyString => ""
  | String c s' =>
      match rstrip s' with
      | EmptyString => if is_space c then "" else String c ""
      | r => String c r
      end
  end.

(** [s.strip()]. *)
Definition strip (s : string) : string := rstrip (lstrip s).

(** [s.replace(pat, "")] for a non-empty [pat]: occurrences are removed
    left to right without overlap.  [skip] counts the characters of an
    occurrence still to be dropped. *)
Fixpoint remove_from (pat : string) (skip : nat) (s : string) : string :=
  match s with
  | EmptyString => ""
  | String c s' =>
      match skip with
      | S k => remove_from pat k s'
      | O =>
          if String.prefix pat s
          then remove_from pat (String.length pat - 1) s'
          else String c (remove_from pat 0 s')
      end
  end.

Definition remove_all (pat s : string) : string := remove_from pat 0 s.

Definition hex_digit (n : nat) : ascii :=
  if (n <? 10)%nat then ascii_of_nat (48 + n) else ascii_of_nat (87 + n).

Definition hex2 (n : nat) : string :=
  String (hex_digit (n / 16)) (String (hex_digit (n mod 16)) "").

Definition bs : string := String (ascii_of_nat 92) "".
Definition dq : string := String (ascii_of_nat 34) "".

Definition string_has (c : ascii) (s : string) : bool :=
  existsb (fun x => String.eqb x (String c "")) (chars s).

(** ** Rendering of values *)

(** The escape of one character inside a JSON string literal, as
    [json.dumps(..., ensure_ascii=False)] writes it: the quote, the
    backslash and the control characters below 0x20 are escaped, every
    other character is written as it is. *)
Definition json_escape_char (c : ascii) : string :=
  let n := nat_of_ascii c in
  if (n =? 34)%nat then bs ++ dq
  else if (n =? 92)%nat then bs ++ bs
  else if (n =? 8)%nat then bs ++ "b"
  else if (n =? 12)%nat then bs ++ "f"
  else if (n =? 10)%nat then bs ++ "n"
  else if (n =? 13)%nat then bs ++ "r"
  else if (n =? 9)%nat then bs ++ "t"
  else if (n <? 32)%nat then bs ++ "u00" ++ hex2 n
  else String c "".

Fixpoint json_escape (s : string) : string :=
  match s with
  | EmptyString => ""
  | String c s' => json_escape_char c ++ json_escape s'
  end.

Definition json_string (s : string) : string := dq ++ json_escape s ++ dq.

(** Two spaces per nesting level, after a line break. *)
Fixpoint spaces (level : nat) : string :=
  match level with
  | O => ""
  | S k => "  " ++ spaces k
  end.

Definition newline_indent (level : nat) : string := nl ++ spaces level.

(** [json.dumps(v, indent=2, ensure_ascii=False)] at nesting depth
    [level]: items of a non-empty container each start on a line of their
    own, one level deeper, separated by a comma; the closing bracket
    returns to the container's depth. *)
Fixpoint json_dumps_at (level : nat) (v : pyval) : string :=
  match v with
  | VNone => "null"
  | VBool true => "true"
  | VBool false => "false"
  | VInt z => str_of_int z
  | VStr s => json_string s
  | VList [] => "[]"
  | VList l =>
      "[" ++ newline_indent (S level)
      ++ join ("," ++ newline_indent (S level))
           (map (json_dumps_at (S level)) l)
      ++ newline_indent level ++ "]"
  | VDict [] => "{}"
  | VDict d =>
      "{" ++ newline_indent (S level)
      ++ join ("," ++ newline_indent (S level))
           (map (fun kv =>
                   match kv with
                   | (k, x) => json_string k ++ ": " ++ json_dumps_at (S level) x
                   end) d)
      ++ newline_indent level ++ "}"
  | VFloat r =>
      if String.eqb r "nan" then "NaN"
      else if String.eqb r "inf" then "Infinity"
      else if String.eqb r "-inf" then "-Infinity"
      else r
  end.

Definition json_dumps (v : pyval) : string := json_dumps_at 0 v.

(** Characters that [repr] of a [str] writes as they are (printable ones,
    code points below 256). *)
Definition is_printable (c : ascii) : bool :=
  let n := nat_of_ascii c in
  (((32 <=? n) && (n <? 127)) || ((161 <=? n) && negb (n =? 173)))%nat.

Definition repr_escape_char (quote : ascii) (c : ascii) : string :=
  let n := nat_of_ascii c in
  if Ascii.eqb c quote then bs ++ String c ""
  else if (n =? 92)%nat then bs ++ bs
  else if (n =? 9)%nat then bs ++ "t"
  else if (n =? 10)%nat then bs ++ "n"
  else if (n =? 13)%nat then bs ++ "r"
  else if is_printable c then String c ""
  else bs ++ "x" ++ hex2 n.

Fixpoint repr_escape (quote : ascii) (s : string) : string :=
  match s with
  | EmptyString => ""
  | String c s' => repr_escape_char quote c ++ repr_escape quote s'
  end.

(** [repr(s)] for a [str]: single quotes, unless the string has a single
    quote and no double quote. *)
Definition repr_str (s : string) : string :=
  let quote :=
    if string_has (ascii_of_nat 39) s && negb (string_has (ascii_of_nat 34) s)
    then ascii_of_nat 34 else ascii_of_nat 39 in
  String quote (repr_escape quote s) ++ String quote "".

(** [repr(v)]. *)
Fixpoint py_repr (v : pyval) : string :=
  match v with
  | VNone => "None"
  | VBool true => "True"
  | VBool false => "False"
  | VInt z => str_of_int z
  | VStr s => repr_str s
  | VList l => "[" ++ join ", " (map py_repr l) ++ "]"
  | VDict d =>
      "{" ++ join ", "
               (map (fun kv =>
                       match kv with
                       | (k, x) => repr_str k ++ ": " ++ py_repr x
                       end) d)
      ++ "}"
  | VFloat r => r
  end.

(** [str(v)], which is what an f-string substitutes for [{v}]: a [str] is
    itself, any other value is its [repr]. *)
Definition py_str (v : pyval) : string :=
  match v with
  | VStr s => s
  | _ => py_repr v
  end.

(** ** Events of the assistant backend *)

(** A content block of an assistant message.  Only text and tool-use
    blocks are inspected; [OtherBlock] stands for every other variant. *)
Inductive block : Type :=
| TextBlock (text : string)
| ToolUseBlock (name : string) (input : pydict)
| OtherBlock.

(** A streamed response.  [OtherMessage] stands for the user, system and
    result messages of the protocol. *)
Inductive response : Type :=
| AssistantMessage (content : list block)
| OtherMessage.

(** What [query(prompt, options)] yields: finitely many responses, then
    either the end of the stream or a raised exception. *)
Record stream : Type := mkStream {
  events : list response;
  failure : option exc
}.

(** ** Effects *)

Inductive log_info : Type :=
| UserMessage (prompt : string)
| ResponseType (r : response)
| ReceivedResponse (r : response)
| ClaudeResponse (fragments : list string).

Inductive event : Type :=
| Typing
| Info (what : log_info)
| Error (e : exc)
| Query (prompt : string)
| Reply (content : pyval).

(** A computation: the effects it performed, in order, and either the
    exception it raised or its value. *)
Definition M (A : Type) : Type := (list event * result A)%type.

Definition ret {A : Type} (a : A) : M A := ([], inr a).

Definition raise {A : Type} (e : exc) : M A := ([], inl e).

Definition emit (ev : event) : M unit := ([ev], inr tt).

Definition lift {A : Type} (r : result A) : M A := ([], r).

Definition bind {A B : Type} (m : M A) (f : A -> M B) : M B :=
  match m with
  | (tr, inl e) => (tr, inl e)
  | (tr, inr a) =>
      match f a with
      | (tr', r) => ((tr ++ tr')%list, r)
      end
  end.

(** What leaves an [except*] statement when its handler raises [raised]
    while handling [caught]: the exception itself when a plain exception
    was caught, a new group holding it when a group was caught. *)
Definition reraise_star (caught raised : exc) : exc :=
  match caught with
  | Exc _ _ => raised
  | ExcGroup _ => ExcGroup [raised]
  end.

(** [try: m  except* Exception as g: h g]. *)
Definition try_except {A : Type} (m : M A) (h : exc -> M A) : M A :=
  match m with
  | (tr, inl e) =>
      match h e with
      | (tr', inr a) => ((tr ++ tr')%list, inr a)
      | (tr', inl e') => ((tr ++ tr')%list, inl (reraise_star e e'))
      end
  | (tr, inr a) => (tr, inr a)
  end.

Notation "x <- m ;; k" := (bind m (fun x => k))
  (at level 61, m at next level, right associativity).
Notation "m ;; k" := (bind m (fun _ => k))
  (at level 61, right associativity).

Definition trace {A : Type} (m : M A) : list event := fst m.
Definition outcome {A : Type} (m : M A) : result A := snd m.

(** The contents of the replies sent, in order. *)
Fixpoint replies (tr : list event) : list pyval :=
  match tr with
  | [] => []
  | Reply c :: tr' => c :: replies tr'
  | _ :: tr' => replies tr'
  end.

(** The prompts of the assistant queries issued, in order. *)
Fixpoint queries (tr : list event) : list string :=
  match tr with
  | [] => []
  | Query p :: tr' => p :: queries tr'
  | _ :: tr' => queries tr'
  end.

(** The exceptions logged at error severity, in order. *)
Fixpoint errors (tr : list event) : list exc :=
  match tr with
  | [] => []
  | Error e :: tr' => e :: errors tr'
  | _ :: tr' => errors tr'
  end.

(** ** The response flattener (lines 102-116) *)

Definition fence : string := "```".

Definition flatten_block (b : block) : result (list string) :=
  match b with
  | TextBlock text => inr [text]
  | ToolUseBlock name input =>
      if String.eqb name "Bash" then
        match dict_get "command" input with
        | None => inl (KeyError "command")
        | Some command =>
            let description :=
              match dict_get "description" input with
              | Some d => d
              | None => VNone
              end in
            inr [ "**" ++ name ++ "**";
                  fence ++ nl ++ "$ " ++ py_str command ++ " # "
                  ++ py_str description ++ nl ++ fence ]
        end
      else
        inr [ "**" ++ name ++ "**";
              fence ++ nl ++ json_dumps (VDict input) ++ nl ++ fence ]
  | OtherBlock => inr []
  end.

(** The inner loop over the blocks of one assistant message, appending to
    [responses]. *)
Fixpoint flatten_content (content : list block) (responses : list string)
  : result (list string) :=
  match content with
  | [] => inr responses
  | b :: content' =>
      match flatten_block b with
      | inl e => inl e
      | inr frs => flatten_content content' (responses ++ frs)%list
      end
  end.

Definition flatten_response (r : response) (responses : list string)
  : result (list string) :=
  match r with
  | AssistantMessage content => flatten_content content responses
  | OtherMessage => inr responses
  end.

(** The outer loop over the streamed responses: each one is logged, then
    flattened. *)
Fixpoint consume (rs : list response) (responses : list string)
  : M (list string) :=
  match rs with
  | [] => ret responses
  | r :: rs' =>
      emit (Info (ResponseType r)) ;;
      emit (Info (ReceivedResponse r)) ;;
      responses' <- lift (flatten_response r responses) ;;
      consume rs' responses'
  end.

(** [async for response in query(...)]: the loop runs over the events; when
    they are exhausted the stream ends or raises. *)
Definition run_query (st : stream) : M (list string) :=
  responses <- consume (events st) [] ;;
  match failure st with
  | Some e => raise e
  | None => ret responses
  end.

(** The fragments the flattener produces for a sequence of responses. *)
Definition flatten (rs : list response) : result (list string) :=
  outcome (consume rs []).

(** ** The mention pipeline *)

(** An inbound message: identities are user ids. *)
Record message : Type := mkMessage {
  author : Z;
  content : string;
  mentions : list Z
}.

(** The mention token of the user with id [uid] (line 82). *)
Definition mention_token (uid : Z) : string := "<@" ++ str_of_int uid ++ ">".

(** [self.config["messages"][name]]. *)
Definition template (config : pyval) (name : string) : result pyval :=
  match subscript config "messages" with
  | inl e => inl e
  | inr messages => subscript messages name
  end.

(** The reply policy on the joined text (lines 122-131). *)
Definition reply_policy (config : pyval) (responses : string) : M unit :=
  if negb (String.eqb responses "") && (4000 <? String.length responses)%nat
  then
    t <- lift (template config "long_response_warning") ;;
    emit (Reply t)
  else if (String.length responses =? 0)%nat then
    t <- lift (template config "empty_response") ;;
    emit (Reply t)
  else
    emit (Reply (VStr (join nl (chars responses)))).

(** The body of the [try] statement (lines 82-131). *)
Definition respond (config : pyval) (uid : Z) (query : string -> stream)
  (m : message) : M unit :=
  let user_content := strip (remove_all (mention_token uid) (content m)) in
  if String.eqb user_content "" then
    t <- lift (template config "empty_message") ;;
    emit (Reply t)
  else
    emit Typing ;;
    emit (Info (UserMessage user_content)) ;;
    emit (Query user_content) ;;
    responses <- run_query (query user_content) ;;
    emit (Info (ClaudeResponse responses)) ;;
    reply_policy config (join nl responses).

(** The exceptions an [except*] clause binds: the members of a raised
    group, or the one exception raised outside a group. *)
Definition group_exceptions (e : exc) : list exc :=
  match e with
  | ExcGroup es => es
  | Exc _ _ => [e]
  end.

(** The loop of the handler (lines 134-138). *)
Fixpoint report (config : pyval) (es : list exc) : M unit :=
  match es with
  | [] => ret tt
  | e :: es' =>
      emit (Error e) ;;
      t <- lift (template config "general_error") ;;
      emit (Reply t) ;;
      report config es'
  end.

(** [handle_mention] (lines 73-138). *)
Definition handle_mention (config : pyval) (uid : Z)
  (query : string -> stream) (m : message) : M unit :=
  try_except (respond config uid query m)
    (fun e_group => report config (group_exceptions e_group)).

(** How [on_message] ends when it returns: the bot's own messages are
    dropped at once (line 64); every other message is handed, as the last
    step, to the framework's command dispatcher (line 71), which looks
    for the command prefix and runs a registered command, the built-in
    [help] included.  What the dispatcher then does is the framework's,
    not this program's: its posts go to the channel, they are no replies
    of the pipeline and are not part of the trace. *)
Inductive handoff : Type :=
| Dropped
| ProcessCommands (m : message).

(** [on_message] (lines 55-71). *)
Definition on_message (config : pyval) (uid : Z)
  (query : string -> stream) (m : message) : M handoff :=
  if Z.eqb (author m) uid then ret Dropped
  else
    (if existsb (Z.eqb uid) (mentions m)
     then handle_mention config uid query m
     else ret tt) ;;
    ret (ProcessCommands m).

(** ** Start-up *)

(** The two entry points of the standard [logging] module that
    [setup_logging] calls.  They are library code, so the model takes them
    as a parameter: [getattr name] is [getattr(logging, name)] for a [str]
    name (the attribute found, or the exception raised), and
    [basicConfig level format] is the call
    [logging.basicConfig(level=level, format=format)], which returns or
    raises.  [attribute] is whatever the module's attributes are. *)
Record logging_module : Type := mkLogging {
  attribute : Type;
  getattr : string -> result attribute;
  basicConfig : attribute -> pyval -> result unit
}.

(** [setup_logging] (lines 141-151).  The arguments of the call are
    evaluated in order: the level name is looked up and resolved with
    [getattr] (which wants a [str]), then the format is looked up, then
    [basicConfig] is called. *)
Definition setup_logging (logging : logging_module) (config : pyval)
  : result unit :=
  match subscript config "logging" with
  | inl e => inl e
  | inr section =>
      match subscript section "level" with
      | inl e => inl e
      | inr (VStr name) =>
          match getattr logging name with
          | inl e => inl e
          | inr level =>
              match subscript config "logging" with
              | inl e => inl e
              | inr section' =>
                  match subscript section' "format" with
                  | inl e => inl e
                  | inr format => basicConfig logging level format
                  end
              end
          end
      | inr _ => inl (TypeError "getattr")
      end
  end.

(** The options built by [ClaudeDiscordBot.__init__] (lines 42-49). *)
Record claude_options : Type := mkOptions {
  system_prompt : pyval;
  allowed_tools : pyval;
  max_turns : pyval
}.

Definition get_default (d : pydict) (k : string) (default : pyval) : pyval :=
  match dict_get k d with
  | Some v => v
  | None => default
  end.

(** [ClaudeDiscordBot.__init__] (lines 25-49): the command prefix and the
    query options. *)
Definition bot_init (config : pyval) : result (pyval * claude_options) :=
  match subscript config "discord" with
  | inl e => inl e
  | inr discord =>
      match subscript discord "prefix" with
      | inl e => inl e
      | inr prefix =>
          match config with
          | VDict d =>
              match get_default d "bot" (VDict []) with
              | VDict b =>
                  inr (prefix,
                       mkOptions
                         (get_default b "system_prompt"
                            (VStr "You are a helpful Discord bot."))
                         (get_default b "allowed_tools" (VList []))
                         (get_default b "max_turns" VNone))
              | _ => inl (AttributeError "get")
              end
          | _ => inl (AttributeError "get")
          end
      end
  end.

(** How [main] ends. *)
Inductive boot : Type :=
| Returned                                   (* [main] returns, no bot *)
| Crashed (e : exc)                          (* an exception leaves [main] *)
| Started (config : pyval) (token : pyval).  (* [bot.start(token)] runs *)

(** [main] (lines 183-221) on the result of [load_config] ([None] when the
    file is missing or malformed).  On line 191 the local name [logger] is
    read before line 202 binds it.  The process environment accepts every
    [str] as the API key. *)
Definition main (logging : logging_module) (loaded : option pyval) : boot :=
  match loaded with
  | None => Crashed (Exc "UnboundLocalError" "logger")
  | Some config =>
      if negb (truthy config) then Crashed (Exc "UnboundLocalError" "logger")
      else
        match method_get config "claude_code" with
        | inl e => Crashed e
        | inr claude_code =>
            let api_key_step : result unit :=
              match claude_code with
              | VNone => inr tt
              | _ =>
                  match method_get claude_code "api_key" with
                  | inl e => inl e
                  | inr k =>
                      if truthy k then
                        match k with
                        | VStr _ => inr tt
                        | _ => inl (TypeError "environ")
                        end
                      else inr tt
                  end
              end in
            match api_key_step with
            | inl e => Crashed e
            | inr _ =>
                match setup_logging logging config with
                | inl e => Crashed e
                | inr _ =>
                    match subscript config "discord" with
                    | inl e => Crashed e
                    | inr discord =>
                        match subscript discord "bot_token" with
                        | inl e => Crashed e
                        | inr token =>
                            if negb (truthy token)
                               || match token with
                                  | VStr t =>
                                      String.eqb t "your_discord_bot_token_here"
                                  | _ => false
                                  end
                            then Returned
                            else
                              match bot_init config with
                              | inl e => Crashed e
                              | inr _ => Started config token
                              end
                        end
                    end
                end
            end
        end
  end.

Definition started (b : boot) : bool :=
  match b with
  | Started _ _ => true
  | _ => false
  end.

(** ** Auxiliary definitions for the statements *)

(** A trace with no reply, no query and no error record. *)
Definition silent (tr : list event) : Prop :=
  replies tr = [] /\ queries tr = [] /\ errors tr = [].

(** The prompt [handle_mention] extracts from a message (line 82). *)
Definition prompt_of (uid : Z) (m : message) : string :=
  strip (remove_all (mention_token uid) (content m)).

(** A dict without the key [k]. *)
Definition dict_remove (k : string) (d : pydict) : pydict :=
  filter (fun kv => negb (String.eqb k (fst kv))) d.

(** ** Concrete inputs *)

Definition example_messages : pyval :=
  VDict [ ("empty_message", VStr "Please write something.");
          ("long_response_warning", VStr "The response is too long.");
          ("empty_response", VStr "No response.");
          ("general_error", VStr "Something went wrong.") ].

Definition example_discord : pyval :=
  VDict [ ("bot_token", VStr "token-123"); ("prefix", VStr "!") ].

Definition example_logging : pyval :=
  VDict [ ("level", VStr "INFO"); ("format", VStr "%(message)s") ].

(** A complete configuration. *)
Definition example_config : pyval :=
  VDict [ ("discord", example_discord); ("logging", example_logging);
          ("messages", example_messages) ].

(** The same configuration with no [messages] section. *)
Definition config_without_messages : pyval :=
  VDict [ ("discord", example_discord); ("logging", example_logging) ].

(** The same configuration whose [messages] section lacks
    [general_error]. *)
Definition config_without_general_error : pyval :=
  VDict [ ("discord", example_discord); ("logging", example_logging);
          ("messages",
           VDict [ ("empty_message", VStr "Please write something.");
                   ("long_response_warning", VStr "The response is too long.");
                   ("empty_response", VStr "No response.") ]) ].

(** A logging module for the concrete runs: it resolves the level name
    [INFO] to 20 and accepts that level with the format of the example
    configuration, as the standard module does, and raises on anything
    else.  Every general statement quantifies over the logging module;
    this one only instantiates them. *)
Definition info_logging : logging_module :=
  mkLogging Z
    (fun name =>
       if String.eqb name "INFO" then inr 20%Z
       else inl (AttributeError name))
    (fun level format =>
       match format with
       | VStr f =>
           if String.eqb f "%(message)s" then inr tt
           else inl (Exc "ValueError" f)
       | _ => inl (TypeError "format")
       end).

(** The bot is user 42; user 7 writes to it. *)
Definition bot_id : Z := 42%Z.

Definition hello_mention : message :=
  mkMessage 7%Z "<@42> hello" [42%Z].

Definition bare_mention : message :=
  mkMessage 7%Z "  <@42>  " [42%Z].

Definition connection_error : exc := Exc "ConnectionError" "reset".
Definition timeout_error : exc := Exc "TimeoutError" "slow".
Definition process_error : exc := Exc "ProcessError" "exit 1".

(** Backends that answer every prompt with the same stream. *)
Definition answers (st : stream) : string -> stream := fun _ => st.

Definition text_ab : stream :=
  mkStream [AssistantMessage [TextBlock "ab"]] None.

Definition fails_after_text : stream :=
  mkStream [AssistantMessage [TextBlock "partial"]] (Some connection_error).

Definition fails_twice : stream :=
  mkStream [AssistantMessage [TextBlock "partial"]]
    (Some (ExcGroup [connection_error; timeout_error])).

Definition fails_thrice : stream :=
  mkStream [AssistantMessage [TextBlock "partial"]]
    (Some (ExcGroup [connection_error; timeout_error; process_error])).

Definition bash_ls : block :=
  ToolUseBlock "Bash" [("command", VStr "ls"); ("description", VStr "list")].

Definition bash_ls_undescribed : block :=
  ToolUseBlock "Bash" [("command", VStr "ls")].

Definition bash_without_command : block :=
  ToolUseBlock "Bash" [("description", VStr "list")].

Definition write_x : block :=
  ToolUseBlock "Write" [("path", VStr "x.txt")].

Definition runs_bash_without_command : stream :=
  mkStream [AssistantMessage [TextBlock "a"; bash_without_command]] None.

(** ** Loading the configuration (lines 154-180) *)

(** What opening and reading [config.yaml] gives.  Other I/O errors are
    not caught by [load_config] and are outside the model. *)
Inductive file_state : Type :=
| FileNotFound
| FileText (text : string).

(** What [yaml.safe_load] gives on a text. *)
Inductive yaml_loaded : Type :=
| YAMLError (problem : string)
| YAMLValue (v : pyval).

(** [load_config]: the records it logs at error severity and the value it
    returns.  The parser is the library's and is taken as a parameter. *)
Definition load_config (config_path : string) (file : file_state)
  (safe_load : string -> yaml_loaded) : list string * option pyval :=
  match file with
  | FileNotFound =>
      ([ "Configuration file not found: " ++ config_path;
         "Please create config.yaml based on config.example.yaml" ],
       None)
  | FileText text =>
      match safe_load text with
      | YAMLError problem =>
          ([ "Failed to load YAML configuration file: " ++ problem ], None)
      | YAMLValue config => ([], Some config)
      end
  end.

(** ** Measures used in the statements *)

Definition starts_with_space (s : string) : bool :=
  match s with
  | EmptyString => false
  | String c _ => is_space c
  end.

Fixpoint ends_with_space (s : string) : bool :=
  match s with
  | EmptyString => false
  | String c EmptyString => is_space c
  | String _ s' => ends_with_space s'
  end.

(** The number of fragments a block contributes. *)
Definition block_fragments (b : block) : nat :=
  match b with
  | TextBlock _ => 1
  | ToolUseBlock _ _ => 2
  | OtherBlock => 0
  end.

Definition response_fragments (r : response) : nat :=
  match r with
  | AssistantMessage blocks => list_sum (map block_fragments blocks)
  | OtherMessage => 0
  end.

(** A block the flattener can render: anything but a Bash tool use
    without [command]. *)
Definition block_renders (b : block) : bool :=
  match b with
  | ToolUseBlock name input =>
      negb (String.eqb name "Bash")
      || match dict_get "command" input with
         | Some _ => true
         | None => false
         end
  | _ => true
  end.

Definition response_renders (r : response) : bool :=
  match r with
  | AssistantMessage blocks => forallb block_renders blocks
  | OtherMessage => true
  end.

Definition is_assistant_message (r : response) : bool :=
  match r with
  | AssistantMessage _ => true
  | OtherMessage => false
  end.

Definition is_inspected_block (b : block) : bool :=
  match b with
  | OtherBlock => false
  | _ => true
  end.






Section PyvalInduction.

Variable P : pyval -> Prop.
Hypothesis HNone : P VNone.
Hypothesis HBool : forall b : bool, P (VBool b).
Hypothesis HInt : forall z : Z, P (VInt z).
Hypothesis HStr : forall s : string, P (VStr s).
Hypothesis HList : forall l : list pyval, Forall P l -> P (VList l).
Hypothesis HDict :
  forall d : pydict, Forall (fun kv => P (snd kv)) d -> P (VDict d).
Hypothesis HFloat : forall r : string, P (VFloat r).


End PyvalInduction.





(** The names of the four templates. *)
Definition template_names : list string :=
  [ "empty_message"; "long_response_warning"; "empty_response";
    "general_error" ].

(** The options [__init__] builds when the configuration has no [bot]
    section. *)
Definition default_options : claude_options :=
  mkOptions (VStr "You are a helpful Discord bot.") (VList []) VNone.

(** More concrete inputs. *)
Definition quiet_message : message :=
  mkMessage 7%Z "hello everyone" [].

Definition own_message : message :=
  mkMessage 42%Z "<@42> hello" [42%Z].

Definition text_empty : stream :=
  mkStream [AssistantMessage [TextBlock ""]] None.

Fixpoint repeat_char (c : ascii) (n : nat) : string :=
  match n with
  | O => ""
  | S k => String c (repeat_char c k)
  end.

(** A stream whose single text fragment is 4001 characters long. *)
Definition long_answer : stream :=
  mkStream [AssistantMessage [TextBlock (repeat_char "a"%char 4001)]] None.

Definition mixed_stream : stream :=
  mkStream [OtherMessage;
            AssistantMessage [TextBlock "a"; OtherBlock; bash_ls];
            OtherMessage;
            AssistantMessage [write_x]] None.

Definition config_with_empty_bot : pyval :=
  VDict [ ("discord", example_discord); ("logging", example_logging);
          ("bot", VNone) ].

Definition parses_to (v : pyval) : string -> yaml_loaded :=
  fun _ => YAMLValue v.

Definition rejects : string -> yaml_loaded :=
  fun _ => YAMLError "mapping values are not allowed here".

(** * Properties *)

(** ** Traces and the monad *)

Section Traces.

Lemma replies_app (a b : list event) :
  replies (a ++ b) = (replies a ++ replies b)%list.
Proof.
  induction a as [|ev a IH]; simpl; [reflexivity|].
  destruct ev; simpl; rewrite IH; reflexivity.
Qed.

Lemma queries_app (a b : list event) :
  queries (a ++ b) = (queries a ++ queries b)%list.
Proof.
  induction a as [|ev a IH]; simpl; [reflexivity|].
  destruct ev; simpl; rewrite IH; reflexivity.
Qed.

Lemma errors_app (a b : list event) :
  errors (a ++ b) = (errors a ++ errors b)%list.
Proof.
  induction a as [|ev a IH]; simpl; [reflexivity|].
  destruct ev; simpl; rewrite IH; reflexivity.
Qed.

Variables A B : Type.

Lemma trace_bind (m : M A) (f : A -> M B) :
  trace (bind m f)
  = (trace m ++ match outcome m with
                | inr a => trace (f a)
                | inl _ => []
                end)%list.
Proof.
  destruct m as [tr [e|a]]; simpl.
  - rewrite app_nil_r; reflexivity.
  - destruct (f a) as [tr' r]; reflexivity.
Qed.

Lemma outcome_bind (m : M A) (f : A -> M B) :
  outcome (bind m f)
  = match outcome m with
    | inr a => outcome (f a)
    | inl e => inl e
    end.
Proof.
  destruct m as [tr [e|a]]; simpl; [reflexivity|].
  destruct (f a) as [tr' r]; reflexivity.
Qed.

Lemma trace_try_except (m : M A) (h : exc -> M A) :
  trace (try_except m h)
  = (trace m ++ match outcome m with
                | inl e => trace (h e)
                | inr _ => []
                end)%list.
Proof.
  destruct m as [tr [e|a]]; simpl.
  - destruct (h e) as [tr' [e'|a]]; reflexivity.
  - rewrite app_nil_r; reflexivity.
Qed.

Lemma outcome_try_except (m : M A) (h : exc -> M A) :
  outcome (try_except m h)
  = match outcome m with
    | inl e =>
        match outcome (h e) with
        | inl e' => inl (reraise_star e e')
        | inr a => inr a
        end
    | inr a => inr a
    end.
Proof.
  destruct m as [tr [e|a]]; simpl; [|reflexivity].
  destruct (h e) as [tr' [e'|a]]; reflexivity.
Qed.

End Traces.

Lemma silent_app (a b : list event) :
  silent a -> silent b -> silent (a ++ b).
Proof.
  intros (Ha1 & Ha2 & Ha3) (Hb1 & Hb2 & Hb3).
  unfold silent.
  rewrite replies_app, queries_app, errors_app.
  rewrite Ha1, Ha2, Ha3, Hb1, Hb2, Hb3.
  repeat split.
Qed.

(** ** The flattener *)

(** The only error the flattener raises is the missing [command] key. *)
Lemma flatten_block_error (b : block) (e : exc) :
  flatten_block b = inl e -> e = KeyError "command".
Proof.
  destruct b as [text|name input|]; simpl; try discriminate.
  destruct (String.eqb name "Bash"); [|discriminate].
  destruct (dict_get "command" input); [discriminate|].
  intros H; injection H as <-; reflexivity.
Qed.

(** The accumulator is a prefix of the result: earlier fragments are
    never touched. *)
Lemma flatten_content_acc (bs : list block) (acc : list string) :
  flatten_content bs acc
  = match flatten_content bs [] with
    | inl e => inl e
    | inr frs => inr (acc ++ frs)%list
    end.
Proof.
  revert acc.
  induction bs as [|b bs IH]; intros acc; simpl.
  - rewrite app_nil_r; reflexivity.
  - destruct (flatten_block b) as [e|frs]; [reflexivity|].
    rewrite (IH (acc ++ frs)%list), (IH frs).
    destruct (flatten_content bs []) as [e|rest]; [reflexivity|].
    rewrite app_assoc; reflexivity.
Qed.

Lemma flatten_content_error (bs : list block) (acc : list string) (e : exc) :
  flatten_content bs acc = inl e -> e = KeyError "command".
Proof.
  revert acc.
  induction bs as [|b bs IH]; intros acc; simpl; [discriminate|].
  destruct (flatten_block b) as [e'|frs] eqn:Hb.
  - intros H; injection H as <-. eapply flatten_block_error; eassumption.
  - apply IH.
Qed.

(** A [Bash] block without [command] anywhere in a message makes the
    message's flattening fail. *)
Lemma flatten_content_missing_command
  (bs : list block) (acc : list string) (input : pydict) :
  In (ToolUseBlock "Bash" input) bs ->
  dict_get "command" input = None ->
  flatten_content bs acc = inl (KeyError "command").
Proof.
  revert acc.
  induction bs as [|b bs IH]; intros acc Hin Hcmd; [contradiction|].
  simpl.
  destruct (flatten_block b) as [e|frs] eqn:Hb.
  - apply flatten_block_error in Hb; subst e; reflexivity.
  - destruct Hin as [->|Hin].
    + simpl in Hb. rewrite Hcmd in Hb. discriminate.
    + apply IH; assumption.
Qed.

Lemma consume_silent (rs : list response) (acc : list string) :
  silent (trace (consume rs acc)).
Proof.
  revert acc.
  induction rs as [|r rs IH]; intros acc; [repeat split|].
  simpl consume.
  destruct (flatten_response r acc) as [e|frs] eqn:Hr.
  - unfold bind, emit, lift; simpl. repeat split.
  - specialize (IH frs).
    unfold bind, emit, lift; simpl.
    destruct (consume rs frs) as [tr res]; simpl in *. exact IH.
Qed.

Lemma outcome_consume_cons (r : response) (rs : list response)
  (acc : list string) :
  outcome (consume (r :: rs) acc)
  = match flatten_response r acc with
    | inl e => inl e
    | inr frs => outcome (consume rs frs)
    end.
Proof.
  simpl consume. unfold bind, emit, lift; simpl.
  destruct (flatten_response r acc) as [e|frs]; [reflexivity|].
  destruct (consume rs frs) as [tr res]; reflexivity.
Qed.

Lemma consume_error (rs : list response) (acc : list string) (e : exc) :
  outcome (consume rs acc) = inl e -> e = KeyError "command".
Proof.
  revert acc.
  induction rs as [|r rs IH]; intros acc; [discriminate|].
  rewrite outcome_consume_cons.
  destruct (flatten_response r acc) as [e'|frs] eqn:Hr.
  - intros H; injection H as <-.
    destruct r as [bs|]; simpl in Hr; [|discriminate].
    eapply flatten_content_error; eassumption.
  - apply IH.
Qed.

Lemma consume_missing_command
  (rs : list response) (acc : list string) (bs : list block) (input : pydict) :
  In (AssistantMessage bs) rs ->
  In (ToolUseBlock "Bash" input) bs ->
  dict_get "command" input = None ->
  outcome (consume rs acc) = inl (KeyError "command").
Proof.
  revert acc.
  induction rs as [|r rs IH]; intros acc Hr Hb Hcmd; [contradiction|].
  rewrite outcome_consume_cons.
  destruct (flatten_response r acc) as [e|frs] eqn:Hf.
  - destruct r as [bs'|]; simpl in Hf; [|discriminate].
    apply flatten_content_error in Hf; subst e; reflexivity.
  - destruct Hr as [->|Hr].
    + simpl in Hf.
      rewrite (flatten_content_missing_command bs acc input Hb Hcmd) in Hf.
      discriminate.
    + eapply IH; eassumption.
Qed.

Lemma outcome_consume_acc (rs : list response) (acc : list string) :
  outcome (consume rs acc)
  = match flatten rs with
    | inl e => inl e
    | inr frs => inr (acc ++ frs)%list
    end.
Proof.
  unfold flatten.
  revert acc.
  induction rs as [|r rs IH]; intros acc.
  - simpl. rewrite app_nil_r; reflexivity.
  - rewrite !outcome_consume_cons.
    destruct r as [bs|]; simpl flatten_response.
    + rewrite (flatten_content_acc bs acc).
      destruct (flatten_content bs []) as [e|frs]; [reflexivity|].
      rewrite (IH (acc ++ frs)%list), (IH frs).
      destruct (outcome (consume rs [])) as [e|rest]; [reflexivity|].
      rewrite app_assoc; reflexivity.
    + apply IH.
Qed.

(** Flattening a concatenation of event sequences concatenates the
    fragments, in the same order. *)
Lemma flatten_app (rs1 rs2 : list response) :
  flatten (rs1 ++ rs2)
  = match flatten rs1 with
    | inl e => inl e
    | inr f1 =>
        match flatten rs2 with
        | inl e => inl e
        | inr f2 => inr (f1 ++ f2)%list
        end
    end.
Proof.
  unfold flatten at 1 2.
  generalize (@nil string) at 1 2 as acc.
  induction rs1 as [|r rs1 IH]; intros acc.
  - simpl app. rewrite outcome_consume_acc.
    simpl. reflexivity.
  - simpl app. rewrite !outcome_consume_cons.
    destruct (flatten_response r acc) as [e|frs]; [reflexivity|].
    apply IH.
Qed.

(** ** The pipeline *)

Lemma run_query_silent (st : stream) : silent (trace (run_query st)).
Proof.
  unfold run_query. rewrite trace_bind.
  apply silent_app; [apply consume_silent|].
  destruct (outcome (consume (events st) [])); [repeat split|].
  destruct (failure st); repeat split.
Qed.

Lemma outcome_run_query (st : stream) :
  outcome (run_query st)
  = match flatten (events st) with
    | inl e => inl e
    | inr frs =>
        match failure st with
        | Some e => inl e
        | None => inr frs
        end
    end.
Proof.
  unfold run_query, flatten. rewrite outcome_bind.
  destruct (outcome (consume (events st) [])); [reflexivity|].
  destruct (failure st); reflexivity.
Qed.

(** The three branches of the reply policy, as the code takes them. *)
Lemma reply_policy_long (config : pyval) (s : string) :
  4000 < String.length s ->
  reply_policy config s
  = (t <- lift (template config "long_response_warning") ;; emit (Reply t)).
Proof.
  intros HL. unfold reply_policy.
  destruct s as [|c s]; [simpl in HL; lia|].
  replace (4000 <? String.length (String c s))%nat with true
    by (symmetry; apply Nat.ltb_lt; exact HL).
  reflexivity.
Qed.

Lemma reply_policy_empty (config : pyval) :
  reply_policy config ""
  = (t <- lift (template config "empty_response") ;; emit (Reply t)).
Proof. reflexivity. Qed.

Lemma reply_policy_text (config : pyval) (s : string) :
  0 < String.length s <= 4000 ->
  reply_policy config s = emit (Reply (VStr (join nl (chars s)))).
Proof.
  intros [Hpos Hle]. unfold reply_policy.
  replace (4000 <? String.length s)%nat with false
    by (symmetry; apply Nat.ltb_ge; exact Hle).
  rewrite andb_false_r.
  replace (String.length s =? 0)%nat with false
    by (symmetry; apply Nat.eqb_neq; lia).
  reflexivity.
Qed.

(** Whatever the branch, the policy sends one reply when it returns and
    none when a template lookup raises. *)
Lemma reply_policy_replies (config : pyval) (s : string) :
  errors (trace (reply_policy config s)) = []
  /\ queries (trace (reply_policy config s)) = []
  /\ match outcome (reply_policy config s) with
     | inr _ => length (replies (trace (reply_policy config s))) = 1
     | inl _ => replies (trace (reply_policy config s)) = []
     end.
Proof.
  unfold reply_policy.
  destruct (negb (String.eqb s "") && (4000 <? String.length s)%nat).
  - destruct (template config "long_response_warning"); simpl; auto.
  - destruct (String.length s =? 0)%nat; [|simpl; auto].
    destruct (template config "empty_response"); simpl; auto.
Qed.

Lemma respond_empty_prompt (config : pyval) (uid : Z)
  (query : string -> stream) (m : message) :
  prompt_of uid m = "" ->
  respond config uid query m
  = (t <- lift (template config "empty_message") ;; emit (Reply t)).
Proof.
  unfold prompt_of, respond. intros ->. reflexivity.
Qed.

Lemma trace_respond_query (config : pyval) (uid : Z)
  (query : string -> stream) (m : message) :
  prompt_of uid m <> "" ->
  trace (respond config uid query m)
  = ([Typing; Info (UserMessage (prompt_of uid m)); Query (prompt_of uid m)]
     ++ trace (run_query (query (prompt_of uid m)))
     ++ match outcome (run_query (query (prompt_of uid m))) with
        | inl _ => []
        | inr frs =>
            Info (ClaudeResponse frs)
            :: trace (reply_policy config (join nl frs))
        end)%list.
Proof.
  intros Hp. apply String.eqb_neq in Hp.
  unfold respond. cbv zeta. fold (prompt_of uid m). rewrite Hp. cbv iota.
  rewrite !trace_bind. simpl.
  do 3 f_equal.
  destruct (outcome (run_query (query (prompt_of uid m)))) as [e|frs];
    [reflexivity|].
  destruct (reply_policy config (join nl frs)); reflexivity.
Qed.

Lemma outcome_respond_query (config : pyval) (uid : Z)
  (query : string -> stream) (m : message) :
  prompt_of uid m <> "" ->
  outcome (respond config uid query m)
  = match outcome (run_query (query (prompt_of uid m))) with
    | inl e => inl e
    | inr frs => outcome (reply_policy config (join nl frs))
    end.
Proof.
  intros Hp. apply String.eqb_neq in Hp.
  unfold respond. cbv zeta. fold (prompt_of uid m). rewrite Hp. cbv iota.
  rewrite !outcome_bind. simpl.
  destruct (outcome (run_query (query (prompt_of uid m)))) as [e|frs];
    [reflexivity|].
  destruct (reply_policy config (join nl frs)); reflexivity.
Qed.

(** The body of the [try] logs no error; it sends one reply when it
    returns and none when it raises. *)
Lemma respond_replies (config : pyval) (uid : Z)
  (query : string -> stream) (m : message) :
  errors (trace (respond config uid query m)) = []
  /\ match outcome (respond config uid query m) with
     | inr _ => length (replies (trace (respond config uid query m))) = 1
     | inl _ => replies (trace (respond config uid query m)) = []
     end.
Proof.
  destruct (String.eqb_spec (prompt_of uid m) "") as [He|Hne].
  - rewrite (respond_empty_prompt config uid query m He).
    destruct (template config "empty_message"); simpl; auto.
  - rewrite (trace_respond_query config uid query m Hne),
            (outcome_respond_query config uid query m Hne).
    destruct (run_query_silent (query (prompt_of uid m))) as (Hr & _ & He).
    rewrite !errors_app, !replies_app, Hr, He. simpl.
    destruct (outcome (run_query (query (prompt_of uid m)))) as [e|frs];
      [auto|].
    destruct (reply_policy_replies config (join nl frs)) as (Pe & _ & Pr).
    simpl. rewrite Pe. split; [reflexivity|exact Pr].
Qed.

Lemma report_ok (config : pyval) (t : pyval) (es : list exc) :
  template config "general_error" = inr t ->
  report config es
  = (flat_map (fun e => [Error e; Reply t]) es, inr tt).
Proof.
  intros Ht.
  induction es as [|e es IH]; [reflexivity|].
  simpl report. rewrite Ht, IH. reflexivity.
Qed.

Lemma replies_report_events (t : pyval) (es : list exc) :
  replies (flat_map (fun e => [Error e; Reply t]) es) = repeat t (length es).
Proof.
  induction es as [|e es IH]; simpl; [reflexivity|].
  rewrite IH; reflexivity.
Qed.

Lemma errors_report_events (t : pyval) (es : list exc) :
  errors (flat_map (fun e => [Error e; Reply t]) es) = es.
Proof.
  induction es as [|e es IH]; simpl; [reflexivity|].
  rewrite IH; reflexivity.
Qed.

Lemma trace_handle_mention (config : pyval) (uid : Z)
  (query : string -> stream) (m : message) :
  trace (handle_mention config uid query m)
  = (trace (respond config uid query m)
     ++ match outcome (respond config uid query m) with
        | inl e => trace (report config (group_exceptions e))
        | inr _ => []
        end)%list.
Proof. unfold handle_mention. apply trace_try_except. Qed.

Lemma trace_on_message (config : pyval) (uid : Z)
  (query : string -> stream) (m : message) :
  trace (on_message config uid query m)
  = if Z.eqb (author m) uid then []
    else if existsb (Z.eqb uid) (mentions m)
         then trace (handle_mention config uid query m)
         else [].
Proof.
  unfold on_message.
  destruct (Z.eqb (author m) uid); [reflexivity|].
  rewrite trace_bind.
  destruct (existsb (Z.eqb uid) (mentions m)); [|reflexivity].
  destruct (outcome (handle_mention config uid query m));
    simpl; rewrite app_nil_r; reflexivity.
Qed.

Lemma on_message_mention (config : pyval) (uid : Z)
  (query : string -> stream) (m : message) :
  author m <> uid ->
  In uid (mentions m) ->
  trace (on_message config uid query m)
  = trace (handle_mention config uid query m).
Proof.
  intros Ha Hm. rewrite trace_on_message.
  destruct (Z.eqb_spec (author m) uid) as [Heq|_]; [contradiction|].
  replace (existsb (Z.eqb uid) (mentions m)) with true; [reflexivity|].
  symmetry. apply existsb_exists. exists uid. split; [exact Hm|].
  apply Z.eqb_refl.
Qed.

(** ** Rendering facts *)



(** ** Claims *)

(** C1 (reply policy).  The empty and the oversized branch send their
    template, but the verbatim branch does not send the joined text: line
    122 rebinds [responses] to the joined string and line 131 joins that
    string again, which puts a line break between every two characters.
    For the single fragment [ab] the joined text is [ab] and the reply is
    [a], line break, [b]. *)
Theorem C1_verbatim_reply_joined_twice :
  join nl ["ab"] = "ab"
  /\ replies (trace (handle_mention example_config bot_id (answers text_ab)
                       hello_mention))
     = [VStr ("a" ++ nl ++ "b")].
Proof. split; reflexivity. Qed.

(** C4 (Bash rendering).  With both keys present the fragment reads
    [$ command # description]; with [description] absent the lookup yields
    [None], which the f-string renders as the text [None], not as the
    empty string. *)
Theorem C4_absent_description_renders_None :
  flatten_block bash_ls
  = inr ["**Bash**"; fence ++ nl ++ "$ ls # list" ++ nl ++ fence]
  /\ flatten_block bash_ls_undescribed
     = inr ["**Bash**"; fence ++ nl ++ "$ ls # None" ++ nl ++ fence].
Proof. split; reflexivity. Qed.

(** C6 (order).  An assistant message with a text block, a Bash tool use
    and another text block flattens to the four fragments in that order;
    and in general flattening a sequence of events followed by another
    yields the fragments of the first followed by those of the second. *)
Theorem C6_flatten_preserves_order :
  flatten [AssistantMessage [TextBlock "a"; bash_ls; TextBlock "b"]]
  = inr ["a"; "**Bash**"; fence ++ nl ++ "$ ls # list" ++ nl ++ fence; "b"]
  /\ forall rs1 rs2 : list response,
      flatten (rs1 ++ rs2)
      = match flatten rs1 with
        | inl e => inl e
        | inr f1 =>
            match flatten rs2 with
            | inl e => inl e
            | inr f2 => inr (f1 ++ f2)%list
            end
        end.
Proof.
  split; [reflexivity|].
  exact flatten_app.
Qed.

(** *** Line structure of the JSON rendering *)

















(** *** Escapes *)










(** ** The fault boundary *)

(** A failed template lookup raises a plain exception, never a group. *)
Lemma template_error_plain (config : pyval) (name : string) (e : exc) :
  template config name = inl e -> group_exceptions e = [e].
Proof.
  unfold template, subscript.
  destruct config as [| | | | |d|]; try (intros H; injection H as <-; reflexivity).
  destruct (dict_get "messages" d) as [msgs|];
    [|intros H; injection H as <-; reflexivity].
  destruct msgs as [| | | | |d'|]; try (intros H; injection H as <-; reflexivity).
  destruct (dict_get name d'); [discriminate|].
  intros H; injection H as <-; reflexivity.
Qed.

(** When the body of the [try] raises, the handler logs every exception
    bound by the clause and replies once for each. *)
Lemma handle_mention_raise (config : pyval) (uid : Z)
  (query : string -> stream) (m : message) (e : exc) (t : pyval) :
  outcome (respond config uid query m) = inl e ->
  template config "general_error" = inr t ->
  errors (trace (handle_mention config uid query m)) = group_exceptions e
  /\ replies (trace (handle_mention config uid query m))
     = repeat t (length (group_exceptions e)).
Proof.
  intros He Ht.
  destruct (respond_replies config uid query m) as [Herr Hrep].
  rewrite He in Hrep.
  rewrite trace_handle_mention, He, (report_ok config t (group_exceptions e) Ht).
  unfold trace at 2 4; simpl fst.
  rewrite errors_app, replies_app, Herr, Hrep.
  rewrite errors_report_events, replies_report_events.
  split; reflexivity.
Qed.

Lemma handle_mention_return (config : pyval) (uid : Z)
  (query : string -> stream) (m : message) (u : unit) :
  outcome (respond config uid query m) = inr u ->
  errors (trace (handle_mention config uid query m)) = []
  /\ length (replies (trace (handle_mention config uid query m))) = 1.
Proof.
  intros Hu.
  destruct (respond_replies config uid query m) as [Herr Hrep].
  rewrite Hu in Hrep.
  rewrite trace_handle_mention, Hu, app_nil_r.
  split; assumption.
Qed.

(** C2 as stated fails: a group of two exceptions reaching the boundary
    is answered twice. *)
Lemma C2_two_exceptions_two_replies :
  errors (trace (handle_mention example_config bot_id (answers fails_twice)
                   hello_mention))
  = [connection_error; timeout_error]
  /\ replies (trace (handle_mention example_config bot_id (answers fails_twice)
                       hello_mention))
     = [VStr "Something went wrong."; VStr "Something went wrong."]
  /\ length (replies (trace (handle_mention example_config bot_id
                               (answers fails_twice) hello_mention))) <> 1.
Proof.
  split; [reflexivity|]. split; [reflexivity|].
  vm_compute. discriminate.
Qed.

(** C2 (amended).  When an exception group reaches the fault boundary
    and the [general_error] template is configured, each member of the
    group is logged individually and one [general_error] reply is sent
    for each member: as many replies as exceptions. *)
Theorem C2_one_reply_per_exception (config : pyval) (uid : Z)
  (query : string -> stream) (m : message) (es : list exc) (t : pyval) :
  outcome (respond config uid query m) = inl (ExcGroup es) ->
  template config "general_error" = inr t ->
  errors (trace (handle_mention config uid query m)) = es
  /\ replies (trace (handle_mention config uid query m))
     = repeat t (length es).
Proof.
  intros He Ht.
  exact (handle_mention_raise config uid query m (ExcGroup es) t He Ht).
Qed.

Lemma C2_one_reply_per_exception_witness :
  errors (trace (handle_mention example_config bot_id (answers fails_thrice)
                   hello_mention))
  = [connection_error; timeout_error; process_error]
  /\ replies (trace (handle_mention example_config bot_id
                       (answers fails_thrice) hello_mention))
     = repeat (VStr "Something went wrong.") 3.
Proof.
  refine (C2_one_reply_per_exception example_config bot_id
            (answers fails_thrice) hello_mention
            [connection_error; timeout_error; process_error]
            (VStr "Something went wrong.") _ _);
    reflexivity.
Defined.

(** C3 as stated fails: a mention whose query ends in a group of three
    exceptions is answered three times, and a mention handled without a
    [general_error] template is not answered at all when the query
    fails. *)
Lemma C3_three_replies_or_none :
  length (replies (trace (on_message example_config bot_id
                            (answers fails_thrice) hello_mention))) = 3
  /\ length (replies (trace (on_message config_without_general_error bot_id
                               (answers fails_after_text) hello_mention))) = 0.
Proof. split; reflexivity. Qed.

(** C3 (amended).  With the [general_error] template configured, a
    mention by another user is answered exactly once in every branch in
    which the body of the [try] returns (empty prompt, oversized, empty
    and verbatim response) and whenever it raises a plain exception; when
    an exception group reaches the boundary the number of replies is the
    number of its members. *)
Theorem C3_replies_per_mention (config : pyval) (uid : Z)
  (query : string -> stream) (m : message) (t : pyval) :
  author m <> uid ->
  In uid (mentions m) ->
  template config "general_error" = inr t ->
  length (replies (trace (on_message config uid query m)))
  = match outcome (respond config uid query m) with
    | inr _ => 1
    | inl (Exc _ _) => 1
    | inl (ExcGroup es) => length es
    end.
Proof.
  intros Ha Hm Ht.
  rewrite (on_message_mention config uid query m Ha Hm).
  destruct (outcome (respond config uid query m)) as [e|u] eqn:Ho.
  - destruct (handle_mention_raise config uid query m e t Ho Ht) as [_ Hr].
    rewrite Hr, repeat_length.
    destruct e; reflexivity.
  - destruct (handle_mention_return config uid query m u Ho) as [_ Hr].
    exact Hr.
Qed.

Lemma C3_replies_per_mention_witness :
  length (replies (trace (on_message example_config bot_id (answers text_ab)
                            hello_mention))) = 1.
Proof.
  refine (C3_replies_per_mention example_config bot_id (answers text_ab)
            hello_mention (VStr "Something went wrong.") _ _ _).
  - vm_compute. discriminate.
  - simpl. left. reflexivity.
  - reflexivity.
Defined.

(** C8 (empty prompt).  A mention by another user whose text is empty
    once the mention token is removed and the rest is trimmed is answered
    with the [empty_message] template, and that reply is the only effect:
    no assistant query is issued. *)
Theorem C8_empty_prompt_reply (config : pyval) (uid : Z)
  (query : string -> stream) (m : message) (t : pyval) :
  author m <> uid ->
  In uid (mentions m) ->
  strip (remove_all (mention_token uid) (content m)) = "" ->
  template config "empty_message" = inr t ->
  trace (on_message config uid query m) = [Reply t]
  /\ queries (trace (on_message config uid query m)) = [].
Proof.
  intros Ha Hm Hp Ht.
  rewrite (on_message_mention config uid query m Ha Hm).
  unfold handle_mention.
  rewrite (respond_empty_prompt config uid query m Hp), Ht.
  split; reflexivity.
Qed.

Lemma C8_empty_prompt_reply_witness :
  trace (on_message example_config bot_id (answers text_ab) bare_mention)
  = [Reply (VStr "Please write something.")]
  /\ queries (trace (on_message example_config bot_id (answers text_ab)
                       bare_mention)) = [].
Proof.
  refine (C8_empty_prompt_reply example_config bot_id (answers text_ab)
            bare_mention (VStr "Please write something.") _ _ _ _).
  - vm_compute. discriminate.
  - simpl. left. reflexivity.
  - reflexivity.
  - reflexivity.
Defined.

(** C9 as stated fails: a stream that emits a text fragment and then
    raises a group of three exceptions is answered with three replies,
    not with one; and without the [general_error] template a stream that
    emits a text fragment and then raises is not answered at all. *)
Lemma C9_failure_not_answered_once :
  flatten (events fails_thrice) = inr ["partial"]
  /\ replies (trace (handle_mention example_config bot_id
                       (answers fails_thrice) hello_mention))
     = [ VStr "Something went wrong."; VStr "Something went wrong.";
         VStr "Something went wrong." ]
  /\ flatten (events fails_after_text) = inr ["partial"]
  /\ replies (trace (handle_mention config_without_general_error bot_id
                       (answers fails_after_text) hello_mention))
     = [].
Proof. repeat split. Qed.

(** C9 (amended).  When the events of a query flatten without error, the
    stream then raises and the [general_error] template is configured,
    nothing of the fragments is sent: the errors logged are the
    exceptions bound at the fault boundary and every reply is the
    [general_error] template, one per exception; for a plain exception
    the replies are exactly that one template. *)
Theorem C9_partial_fragments_discarded (config : pyval) (uid : Z)
  (query : string -> stream) (m : message)
  (frs : list string) (e : exc) (t : pyval) :
  prompt_of uid m <> "" ->
  flatten (events (query (prompt_of uid m))) = inr frs ->
  failure (query (prompt_of uid m)) = Some e ->
  template config "general_error" = inr t ->
  errors (trace (handle_mention config uid query m)) = group_exceptions e
  /\ replies (trace (handle_mention config uid query m))
     = repeat t (length (group_exceptions e))
  /\ (forall cls msg : string,
        e = Exc cls msg ->
        replies (trace (handle_mention config uid query m)) = [t]).
Proof.
  intros Hp Hfl Hfail Ht.
  assert (Ho : outcome (respond config uid query m) = inl e).
  { rewrite (outcome_respond_query config uid query m Hp).
    rewrite outcome_run_query, Hfl, Hfail. reflexivity. }
  destruct (handle_mention_raise config uid query m e t Ho Ht) as [Herr Hrep].
  split; [exact Herr|]. split; [exact Hrep|].
  intros cls msg ->. exact Hrep.
Qed.

Lemma C9_partial_fragments_discarded_witness :
  errors (trace (handle_mention example_config bot_id
                   (answers fails_after_text) hello_mention))
  = [connection_error]
  /\ replies (trace (handle_mention example_config bot_id
                       (answers fails_after_text) hello_mention))
     = [VStr "Something went wrong."]
  /\ (forall cls msg : string,
        connection_error = Exc cls msg ->
        replies (trace (handle_mention example_config bot_id
                          (answers fails_after_text) hello_mention))
        = [VStr "Something went wrong."]).
Proof.
  refine (C9_partial_fragments_discarded example_config bot_id
            (answers fails_after_text) hello_mention ["partial"]
            connection_error (VStr "Something went wrong.") _ _ _ _).
  - vm_compute. discriminate.
  - reflexivity.
  - reflexivity.
  - reflexivity.
Defined.

(** C10 (Bash without command).  Flattening a Bash tool-use block whose
    input has no [command] key raises [KeyError]; a query whose events
    contain such a block is therefore answered through the fault boundary:
    the [KeyError] is logged and the only reply is the [general_error]
    template. *)
Theorem C10_bash_without_command (config : pyval) (uid : Z)
  (query : string -> stream) (m : message)
  (blocks : list block) (input : pydict) (t : pyval) :
  prompt_of uid m <> "" ->
  In (AssistantMessage blocks) (events (query (prompt_of uid m))) ->
  In (ToolUseBlock "Bash" input) blocks ->
  dict_get "command" input = None ->
  template config "general_error" = inr t ->
  flatten_block (ToolUseBlock "Bash" input) = inl (KeyError "command")
  /\ errors (trace (handle_mention config uid query m)) = [KeyError "command"]
  /\ replies (trace (handle_mention config uid query m)) = [t].
Proof.
  intros Hp Hmsg Hblk Hcmd Ht.
  split; [simpl; rewrite Hcmd; reflexivity|].
  assert (Ho : outcome (respond config uid query m)
               = inl (KeyError "command")).
  { rewrite (outcome_respond_query config uid query m Hp).
    rewrite outcome_run_query. unfold flatten.
    rewrite (consume_missing_command
               (events (query (prompt_of uid m))) [] blocks input
               Hmsg Hblk Hcmd).
    reflexivity. }
  exact (handle_mention_raise config uid query m (KeyError "command") t Ho Ht).
Qed.

Lemma C10_bash_without_command_witness :
  flatten_block bash_without_command = inl (KeyError "command")
  /\ errors (trace (handle_mention example_config bot_id
                      (answers runs_bash_without_command) hello_mention))
     = [KeyError "command"]
  /\ replies (trace (handle_mention example_config bot_id
                       (answers runs_bash_without_command) hello_mention))
     = [VStr "Something went wrong."].
Proof.
  refine (C10_bash_without_command example_config bot_id
            (answers runs_bash_without_command) hello_mention
            [TextBlock "a"; bash_without_command]
            [("description", VStr "list")]
            (VStr "Something went wrong.") _ _ _ _ _).
  - vm_compute. discriminate.
  - simpl. left. reflexivity.
  - simpl. right. left. reflexivity.
  - reflexivity.
  - reflexivity.
Defined.

(** ** Start-up *)

(** Start-up reads the keys [claude_code], [logging], [discord] and [bot]
    of the configuration and nothing else: two configurations that agree
    outside [messages] start, or fail to start, alike. *)
Lemma started_main_messages_irrelevant (logging : logging_module)
  (d d' : pydict) :
  (forall k : string, k <> "messages" -> dict_get k d = dict_get k d') ->
  started (main logging (Some (VDict d)))
  = started (main logging (Some (VDict d'))).
Proof.
  intros Hagree.
  assert (Hcc : dict_get "claude_code" d = dict_get "claude_code" d')
    by (apply Hagree; discriminate).
  assert (Hlog : dict_get "logging" d = dict_get "logging" d')
    by (apply Hagree; discriminate).
  assert (Hdis : dict_get "discord" d = dict_get "discord" d')
    by (apply Hagree; discriminate).
  assert (Hbot : dict_get "bot" d = dict_get "bot" d')
    by (apply Hagree; discriminate).
  assert (Hempty : forall x : pydict,
             dict_get "claude_code" x = None ->
             dict_get "logging" x = None ->
             started (main logging (Some (VDict x))) = false).
  { intros x Hc Hl. unfold main.
    destruct (negb (truthy (VDict x))); [reflexivity|].
    unfold method_get, setup_logging, subscript. rewrite Hc, Hl.
    reflexivity. }
  destruct d as [|p l].
  - simpl in Hcc, Hlog. symmetry. rewrite Hempty; auto.
  - destruct d' as [|p' l'].
    + simpl in Hcc, Hlog. rewrite Hempty; auto.
    + remember (p :: l) as x eqn:Hx.
      remember (p' :: l') as x' eqn:Hx'.
      unfold main.
      replace (truthy (VDict x)) with true by (subst x; reflexivity).
      replace (truthy (VDict x')) with true by (subst x'; reflexivity).
      cbv [negb].
      unfold method_get, setup_logging, bot_init, subscript, get_default.
      rewrite Hcc, Hlog, Hdis, Hbot.
      repeat match goal with
             | |- context [match ?s with _ => _ end] =>
                 lazymatch s with
                 | context [match _ with _ => _ end] => fail
                 | _ => destruct s; try reflexivity
                 end
             end.
Qed.

(** * Further properties of the pipeline *)

Lemma queries_report (config : pyval) (es : list exc) :
  queries (trace (report config es)) = [].
Proof.
  induction es as [|e es IH]; [reflexivity|].
  simpl report.
  destruct (template config "general_error") as [k|t]; [reflexivity|].
  unfold bind, emit, lift; simpl.
  destruct (report config es) as [tr r]; simpl in *. exact IH.
Qed.

Lemma replies_report_are_templates (config : pyval) (es : list exc)
  (r : pyval) :
  In r (replies (trace (report config es))) ->
  template config "general_error" = inr r.
Proof.
  induction es as [|e es IH]; [contradiction|].
  simpl report.
  destruct (template config "general_error") as [k|t] eqn:Ht;
    [contradiction|].
  unfold bind, emit, lift; simpl.
  destruct (report config es) as [tr res]; simpl in *.
  intros [<-|Hin]; [reflexivity|]. apply IH; exact Hin.
Qed.

Lemma queries_respond (config : pyval) (uid : Z)
  (query : string -> stream) (m : message) :
  queries (trace (respond config uid query m))
  = if String.eqb (prompt_of uid m) "" then [] else [prompt_of uid m].
Proof.
  destruct (String.eqb_spec (prompt_of uid m) "") as [He|Hne].
  - rewrite (respond_empty_prompt config uid query m He).
    destruct (template config "empty_message"); reflexivity.
  - rewrite (trace_respond_query config uid query m Hne).
    destruct (run_query_silent (query (prompt_of uid m))) as (_ & Hq & _).
    rewrite !queries_app, Hq. simpl.
    destruct (outcome (run_query (query (prompt_of uid m)))) as [e|frs];
      [reflexivity|].
    destruct (reply_policy_replies config (join nl frs)) as (_ & Pq & _).
    simpl. rewrite Pq. reflexivity.
Qed.

Lemma queries_handle_mention (config : pyval) (uid : Z)
  (query : string -> stream) (m : message) :
  queries (trace (handle_mention config uid query m))
  = if String.eqb (prompt_of uid m) "" then [] else [prompt_of uid m].
Proof.
  rewrite trace_handle_mention, queries_app, queries_respond.
  destruct (outcome (respond config uid query m)) as [e|u].
  - rewrite queries_report, app_nil_r. reflexivity.
  - rewrite app_nil_r. reflexivity.
Qed.

(** The assistant is queried at most once per mention: not at all for an
    empty prompt, and otherwise exactly once, with the extracted prompt,
    whatever the stream then does. *)
Theorem handle_mention_queries_once (config : pyval) (uid : Z)
  (query : string -> stream) (m : message) :
  queries (trace (handle_mention config uid query m))
  = if String.eqb (prompt_of uid m) "" then [] else [prompt_of uid m].
Proof. exact (queries_handle_mention config uid query m). Qed.

(** With the [general_error] template configured, no exception leaves
    [handle_mention]: whatever the backend or the flattener raises, the
    handler returns normally. *)
Theorem handle_mention_contains_errors (config : pyval) (uid : Z)
  (query : string -> stream) (m : message) (t : pyval) :
  template config "general_error" = inr t ->
  outcome (handle_mention config uid query m) = inr tt.
Proof.
  intros Ht. unfold handle_mention. rewrite outcome_try_except.
  destruct (outcome (respond config uid query m)) as [e|[]]; [|reflexivity].
  rewrite (report_ok config t (group_exceptions e) Ht). reflexivity.
Qed.

Lemma handle_mention_contains_errors_witness :
  outcome (handle_mention example_config bot_id (answers fails_twice)
             hello_mention) = inr tt.
Proof.
  refine (handle_mention_contains_errors example_config bot_id
            (answers fails_twice) hello_mention
            (VStr "Something went wrong.") _).
  reflexivity.
Defined.

Lemma handler_fails (config : pyval) (uid : Z)
  (query : string -> stream) (m : message)
  (e first k : exc) (rest : list exc) :
  outcome (respond config uid query m) = inl e ->
  group_exceptions e = first :: rest ->
  template config "general_error" = inl k ->
  errors (trace (handle_mention config uid query m)) = [first]
  /\ replies (trace (handle_mention config uid query m)) = []
  /\ outcome (handle_mention config uid query m) = inl (reraise_star e k).
Proof.
  intros He Hg Hk.
  destruct (respond_replies config uid query m) as [Herr Hrep].
  rewrite He in Hrep.
  assert (Hreport : report config (first :: rest) = ([Error first], inl k)).
  { simpl report. rewrite Hk. reflexivity. }
  unfold handle_mention at 3. rewrite outcome_try_except.
  rewrite trace_handle_mention, He, Hg, Hreport.
  rewrite errors_app, replies_app, Herr, Hrep.
  repeat split.
Qed.



Lemma handle_mention_trace_nonempty (config : pyval) (uid : Z)
  (query : string -> stream) (m : message) :
  trace (handle_mention config uid query m) <> [].
Proof.
  rewrite trace_handle_mention.
  destruct (String.eqb_spec (prompt_of uid m) "") as [He|Hne].
  - rewrite (respond_empty_prompt config uid query m He).
    destruct (template config "empty_message") as [k|t] eqn:Ht.
    + cbv [lift bind outcome trace fst snd app].
      rewrite (template_error_plain config "empty_message" k Ht).
      simpl report.
      destruct (template config "general_error"); discriminate.
    + discriminate.
  - rewrite (trace_respond_query config uid query m Hne). discriminate.
Qed.

Lemma outcome_on_message (config : pyval) (uid : Z)
  (query : string -> stream) (m : message) :
  outcome (on_message config uid query m)
  = if Z.eqb (author m) uid then inr Dropped
    else if existsb (Z.eqb uid) (mentions m)
         then match outcome (handle_mention config uid query m) with
              | inl e => inl e
              | inr _ => inr (ProcessCommands m)
              end
         else inr (ProcessCommands m).
Proof.
  unfold on_message.
  destruct (Z.eqb (author m) uid); [reflexivity|].
  rewrite outcome_bind.
  destruct (existsb (Z.eqb uid) (mentions m)); [|reflexivity].
  destruct (outcome (handle_mention config uid query m)); reflexivity.
Qed.

Lemma existsb_mentions (uid : Z) (l : list Z) :
  existsb (Z.eqb uid) l = true <-> In uid l.
Proof.
  rewrite existsb_exists. split.
  - intros (x & Hx & Heq). apply Z.eqb_eq in Heq. subst x. exact Hx.
  - intros Hin. exists uid. split; [exact Hin|apply Z.eqb_refl].
Qed.

(** [on_message] runs nothing of the pipeline (no reply, no query, no
    log record) exactly for the messages the bot wrote itself and for
    those that do not mention it.  The bot's own messages are dropped
    before the command dispatcher; a message of someone else that does
    not mention the bot goes to the dispatcher untouched; a mention goes
    there after [handle_mention] returned, and not at all when it
    raised. *)
Theorem on_message_ignores_exactly (config : pyval) (uid : Z)
  (query : string -> stream) (m : message) :
  (trace (on_message config uid query m) = []
   <-> author m = uid \/ ~ In uid (mentions m))
  /\ (author m = uid ->
      outcome (on_message config uid query m) = inr Dropped)
  /\ (author m <> uid ->
      ~ In uid (mentions m) ->
      outcome (on_message config uid query m) = inr (ProcessCommands m))
  /\ (author m <> uid ->
      In uid (mentions m) ->
      outcome (on_message config uid query m)
      = match outcome (handle_mention config uid query m) with
        | inl e => inl e
        | inr _ => inr (ProcessCommands m)
        end).
Proof.
  split; [|split; [|split]].
  - rewrite trace_on_message. split.
    + intros Htr.
      destruct (Z.eqb_spec (author m) uid) as [Ha|Ha]; [left; exact Ha|].
      right. intros Hin. apply existsb_mentions in Hin.
      rewrite Hin in Htr.
      exact (handle_mention_trace_nonempty config uid query m Htr).
    + intros [Ha|Hm].
      * rewrite Ha, Z.eqb_refl. reflexivity.
      * destruct (Z.eqb (author m) uid); [reflexivity|].
        destruct (existsb (Z.eqb uid) (mentions m)) eqn:Hex; [|reflexivity].
        exfalso. apply Hm. apply existsb_mentions. exact Hex.
  - intros Ha. rewrite outcome_on_message, Ha, Z.eqb_refl. reflexivity.
  - intros Ha Hm. rewrite outcome_on_message.
    destruct (Z.eqb_spec (author m) uid) as [Heq|_]; [contradiction|].
    destruct (existsb (Z.eqb uid) (mentions m)) eqn:Hex; [|reflexivity].
    exfalso. apply Hm. apply existsb_mentions. exact Hex.
  - intros Ha Hm. rewrite outcome_on_message.
    destruct (Z.eqb_spec (author m) uid) as [Heq|_]; [contradiction|].
    apply existsb_mentions in Hm. rewrite Hm. reflexivity.
Qed.

Lemma on_message_ignores_exactly_witness :
  (trace (on_message example_config bot_id (answers text_ab) quiet_message)
   = []
   <-> author quiet_message = bot_id \/ ~ In bot_id (mentions quiet_message))
  /\ (author own_message = bot_id ->
      outcome (on_message example_config bot_id (answers text_ab) own_message)
      = inr Dropped)
  /\ (author quiet_message <> bot_id ->
      ~ In bot_id (mentions quiet_message) ->
      outcome (on_message example_config bot_id (answers text_ab)
                 quiet_message)
      = inr (ProcessCommands quiet_message))
  /\ (author hello_mention <> bot_id ->
      In bot_id (mentions hello_mention) ->
      outcome (on_message example_config bot_id (answers text_ab)
                 hello_mention)
      = inr (ProcessCommands hello_mention)).
Proof.
  split; [|split; [|split]].
  - exact (proj1 (on_message_ignores_exactly example_config bot_id
                    (answers text_ab) quiet_message)).
  - exact (proj1 (proj2 (on_message_ignores_exactly example_config bot_id
                           (answers text_ab) own_message))).
  - exact (proj1 (proj2 (proj2 (on_message_ignores_exactly example_config
                                  bot_id (answers text_ab) quiet_message)))).
  - exact (proj2 (proj2 (proj2 (on_message_ignores_exactly example_config
                                  bot_id (answers text_ab) hello_mention)))).
Defined.

(** ** The reply policy, end to end *)

Lemma length_append (a b : string) :
  String.length (a ++ b) = String.length a + String.length b.
Proof.
  induction a as [|c a IH]; simpl; [reflexivity|].
  rewrite IH; reflexivity.
Qed.

(** Joining the characters of a non-empty string of length L with line
    breaks gives a string of length 2L - 1. *)
Lemma length_join_chars (s : string) :
  s <> "" ->
  String.length (join nl (chars s)) = 2 * String.length s - 1.
Proof.
  induction s as [|c s IH]; intros Hne; [contradiction|].
  destruct s as [|c' s'].
  - reflexivity.
  - change (join nl (chars (String c (String c' s'))))
      with (String c (nl ++ join nl (chars (String c' s')))).
    cbn [String.length]. rewrite length_append, IH by discriminate.
    cbn [String.length nl]. simpl String.length. lia.
Qed.

(** The joined text is empty only when there is no fragment or the one
    fragment is the empty text. *)
Lemma join_nl_empty (frs : list string) :
  join nl frs = "" <-> frs = [] \/ frs = [""].
Proof.
  split.
  - destruct frs as [|p [|q rest]]; simpl join.
    + intros _. left. reflexivity.
    + intros ->. right. reflexivity.
    + intros H. apply (f_equal String.length) in H.
      rewrite !length_append in H. simpl in H. lia.
  - intros [->| ->]; reflexivity.
Qed.

Lemma flatten_of_run_query (st : stream) (frs : list string) :
  outcome (run_query st) = inr frs ->
  flatten (events st) = inr frs /\ failure st = None.
Proof.
  rewrite outcome_run_query.
  destruct (flatten (events st)) as [e|frs']; [discriminate|].
  destruct (failure st); [discriminate|].
  intros H; injection H as <-. split; reflexivity.
Qed.

Lemma run_query_success (st : stream) (frs : list string) :
  flatten (events st) = inr frs ->
  failure st = None ->
  outcome (run_query st) = inr frs.
Proof.
  intros Hfl Hfail. rewrite outcome_run_query, Hfl, Hfail. reflexivity.
Qed.

(** After a query that ended normally, what is sent is what the reply
    policy sends on the joined fragments. *)
Lemma replies_after_query (config : pyval) (uid : Z)
  (query : string -> stream) (m : message) (frs : list string) :
  prompt_of uid m <> "" ->
  flatten (events (query (prompt_of uid m))) = inr frs ->
  failure (query (prompt_of uid m)) = None ->
  outcome (reply_policy config (join nl frs)) = inr tt ->
  replies (trace (handle_mention config uid query m))
  = replies (trace (reply_policy config (join nl frs))).
Proof.
  intros Hp Hfl Hfail Hpol.
  pose proof (run_query_success (query (prompt_of uid m)) frs Hfl Hfail)
    as Hrun.
  rewrite trace_handle_mention.
  rewrite (outcome_respond_query config uid query m Hp), Hrun, Hpol.
  rewrite (trace_respond_query config uid query m Hp), Hrun.
  destruct (run_query_silent (query (prompt_of uid m))) as (Hr & _ & _).
  rewrite app_nil_r, !replies_app, Hr. reflexivity.
Qed.

Lemma replies_by_branch (config : pyval) (uid : Z)
  (query : string -> stream) (m : message) (frs : list string) :
  prompt_of uid m <> "" ->
  flatten (events (query (prompt_of uid m))) = inr frs ->
  failure (query (prompt_of uid m)) = None ->
  (String.length (join nl frs) = 0 ->
   forall t : pyval,
     template config "empty_response" = inr t ->
     replies (trace (handle_mention config uid query m)) = [t])
  /\ (4000 < String.length (join nl frs) ->
      forall t : pyval,
        template config "long_response_warning" = inr t ->
        replies (trace (handle_mention config uid query m)) = [t])
  /\ (0 < String.length (join nl frs) <= 4000 ->
      replies (trace (handle_mention config uid query m))
      = [VStr (join nl (chars (join nl frs)))]).
Proof.
  intros Hp Hfl Hfail.
  split; [|split].
  - intros HL t Ht.
    assert (Hs : join nl frs = "")
      by (destruct (join nl frs); [reflexivity|discriminate]).
    assert (Hpol : reply_policy config (join nl frs) = ([Reply t], inr tt))
      by (rewrite Hs, reply_policy_empty, Ht; reflexivity).
    rewrite (replies_after_query config uid query m frs Hp Hfl Hfail);
      rewrite Hpol; reflexivity.
  - intros HL t Ht.
    assert (Hpol : reply_policy config (join nl frs) = ([Reply t], inr tt))
      by (rewrite (reply_policy_long config (join nl frs) HL), Ht;
          reflexivity).
    rewrite (replies_after_query config uid query m frs Hp Hfl Hfail);
      rewrite Hpol; reflexivity.
  - intros HL.
    rewrite (replies_after_query config uid query m frs Hp Hfl Hfail);
      rewrite (reply_policy_text config (join nl frs) HL); reflexivity.
Qed.

(** For a query that ended normally with joined text of length L: the
    [empty_response] template is sent when L = 0, the
    [long_response_warning] template when L > 4000, and otherwise the
    joined text with a line break put between every two characters.  In
    each case that is the only reply. *)
Theorem reply_policy_end_to_end (config : pyval) (uid : Z)
  (query : string -> stream) (m : message) (frs : list string) :
  prompt_of uid m <> "" ->
  flatten (events (query (prompt_of uid m))) = inr frs ->
  failure (query (prompt_of uid m)) = None ->
  (String.length (join nl frs) = 0 ->
   forall t : pyval,
     template config "empty_response" = inr t ->
     replies (trace (handle_mention config uid query m)) = [t])
  /\ (4000 < String.length (join nl frs) ->
      forall t : pyval,
        template config "long_response_warning" = inr t ->
        replies (trace (handle_mention config uid query m)) = [t])
  /\ (0 < String.length (join nl frs) <= 4000 ->
      replies (trace (handle_mention config uid query m))
      = [VStr (join nl (chars (join nl frs)))]).
Proof.
  intros Hp Hfl Hfail.
  exact (replies_by_branch config uid query m frs Hp Hfl Hfail).
Qed.

Lemma reply_policy_end_to_end_witness :
  replies (trace (handle_mention example_config bot_id (answers text_empty)
                    hello_mention))
  = [VStr "No response."].
Proof.
  refine (proj1 (reply_policy_end_to_end example_config bot_id
                   (answers text_empty) hello_mention [""] _ _ _)
            _ (VStr "No response.") _).
  - vm_compute. discriminate.
  - reflexivity.
  - reflexivity.
  - reflexivity.
  - reflexivity.
Defined.

(** In the verbatim branch with joined text of length L >= 2, the text
    sent has length 2L - 1 and so is never the joined text; it can be up
    to 7999 characters long although the threshold is 4000. *)
Theorem verbatim_reply_length (config : pyval) (uid : Z)
  (query : string -> stream) (m : message) (frs : list string) :
  prompt_of uid m <> "" ->
  flatten (events (query (prompt_of uid m))) = inr frs ->
  failure (query (prompt_of uid m)) = None ->
  2 <= String.length (join nl frs) <= 4000 ->
  exists sent : string,
    replies (trace (handle_mention config uid query m)) = [VStr sent]
    /\ String.length sent = 2 * String.length (join nl frs) - 1
    /\ sent <> join nl frs.
Proof.
  intros Hp Hfl Hfail HL.
  exists (join nl (chars (join nl frs))).
  assert (Hlen : String.length (join nl (chars (join nl frs)))
                 = 2 * String.length (join nl frs) - 1).
  { apply length_join_chars. intros Hs. rewrite Hs in HL. simpl in HL. lia. }
  split; [|split].
  - apply (proj2 (proj2 (replies_by_branch config uid query m frs
                           Hp Hfl Hfail))). lia.
  - exact Hlen.
  - intros Heq. rewrite Heq in Hlen. lia.
Qed.

Lemma verbatim_reply_length_witness :
  exists sent : string,
    replies (trace (handle_mention example_config bot_id (answers text_ab)
                      hello_mention)) = [VStr sent]
    /\ String.length sent = 2 * String.length (join nl ["ab"]) - 1
    /\ sent <> join nl ["ab"].
Proof.
  refine (verbatim_reply_length example_config bot_id (answers text_ab)
            hello_mention ["ab"] _ _ _ _).
  - vm_compute. discriminate.
  - reflexivity.
  - reflexivity.
  - simpl. lia.
Defined.

(** A query that ended normally is answered with [empty_response]
    exactly when it produced no fragment or a single empty text: an
    assistant message whose only block is an empty text counts as no
    response. *)
Theorem empty_response_when (config : pyval) (uid : Z)
  (query : string -> stream) (m : message) (frs : list string) (t : pyval) :
  prompt_of uid m <> "" ->
  flatten (events (query (prompt_of uid m))) = inr frs ->
  failure (query (prompt_of uid m)) = None ->
  template config "empty_response" = inr t ->
  (frs = [] \/ frs = [""] ->
   replies (trace (handle_mention config uid query m)) = [t])
  /\ (~ (frs = [] \/ frs = [""]) -> 0 < String.length (join nl frs)).
Proof.
  intros Hp Hfl Hfail Ht.
  split.
  - intros Hfrs. apply join_nl_empty in Hfrs.
    apply (proj1 (replies_by_branch config uid query m frs
                    Hp Hfl Hfail));
      [rewrite Hfrs; reflexivity|exact Ht].
  - intros Hfrs.
    destruct (join nl frs) as [|c s] eqn:Hj; [|simpl; lia].
    exfalso. apply Hfrs. apply join_nl_empty. exact Hj.
Qed.

Lemma empty_response_when_witness :
  ([""] = [] \/ [""] = [""] ->
   replies (trace (handle_mention example_config bot_id (answers text_empty)
                     hello_mention)) = [VStr "No response."])
  /\ (~ ([""] = [] \/ [""] = [""]) -> 0 < String.length (join nl [""])).
Proof.
  refine (empty_response_when example_config bot_id (answers text_empty)
            hello_mention [""] (VStr "No response.") _ _ _ _).
  - vm_compute. discriminate.
  - reflexivity.
  - reflexivity.
  - reflexivity.
Defined.

(** ** What a reply can be *)

Lemma replies_policy_origin (config : pyval) (s : string) (r : pyval) :
  In r (replies (trace (reply_policy config s))) ->
  template config "long_response_warning" = inr r
  \/ template config "empty_response" = inr r
  \/ (r = VStr (join nl (chars s)) /\ 0 < String.length s <= 4000).
Proof.
  unfold reply_policy.
  destruct (String.eqb_spec s "") as [->|Hne]; cbn [negb andb].
  - cbn [String.length Nat.eqb].
    destruct (template config "empty_response") as [k|t]; [contradiction|].
    intros [<-|[]]. right. left. reflexivity.
  - destruct (Nat.ltb_spec 4000 (String.length s)) as [Hlong|Hshort].
    + destruct (template config "long_response_warning") as [k|t];
        [contradiction|].
      intros [<-|[]]. left. reflexivity.
    + destruct (Nat.eqb_spec (String.length s) 0) as [Hz|Hnz].
      * destruct s; [contradiction|discriminate].
      * intros [<-|[]]. right. right. split; [reflexivity|lia].
Qed.

Lemma replies_respond_origin (config : pyval) (uid : Z)
  (query : string -> stream) (m : message) (r : pyval) :
  In r (replies (trace (respond config uid query m))) ->
  (exists name : string,
      In name template_names /\ template config name = inr r)
  \/ (exists frs : list string,
         flatten (events (query (prompt_of uid m))) = inr frs
         /\ failure (query (prompt_of uid m)) = None
         /\ 0 < String.length (join nl frs) <= 4000
         /\ r = VStr (join nl (chars (join nl frs)))).
Proof.
  destruct (String.eqb_spec (prompt_of uid m) "") as [He|Hne].
  - rewrite (respond_empty_prompt config uid query m He).
    destruct (template config "empty_message") as [k|t] eqn:Ht;
      [contradiction|].
    intros [<-|[]]. left. exists "empty_message".
    split; [simpl; auto|exact Ht].
  - rewrite (trace_respond_query config uid query m Hne).
    destruct (run_query_silent (query (prompt_of uid m))) as (Hr & _ & _).
    rewrite !replies_app, Hr. simpl.
    destruct (outcome (run_query (query (prompt_of uid m)))) as [e|frs] eqn:Ho;
      [contradiction|].
    apply flatten_of_run_query in Ho. destruct Ho as [Hfl Hfail].
    simpl. intros Hin.
    destruct (replies_policy_origin config (join nl frs) r Hin)
      as [Hl|[Hem|[Htxt Hlen]]].
    + left. exists "long_response_warning". split; [simpl; auto|exact Hl].
    + left. exists "empty_response". split; [simpl; auto|exact Hem].
    + right. exists frs. repeat split; try assumption; apply Hlen.
Qed.

(** Every reply [handle_mention] sends is either one of the four
    configured templates or the text built from all the fragments of a
    query that ended normally, whose joined text is between 1 and 4000
    characters long.  So no error detail is ever sent, and nothing of the
    fragments of a query that failed. *)
Theorem replies_are_templates_or_text (config : pyval) (uid : Z)
  (query : string -> stream) (m : message) (r : pyval) :
  In r (replies (trace (handle_mention config uid query m))) ->
  (exists name : string,
      In name template_names /\ template config name = inr r)
  \/ (exists frs : list string,
         flatten (events (query (prompt_of uid m))) = inr frs
         /\ failure (query (prompt_of uid m)) = None
         /\ 0 < String.length (join nl frs) <= 4000
         /\ r = VStr (join nl (chars (join nl frs)))).
Proof.
  rewrite trace_handle_mention, replies_app.
  intros Hin. apply in_app_or in Hin. destruct Hin as [Hin|Hin].
  - exact (replies_respond_origin config uid query m r Hin).
  - destruct (outcome (respond config uid query m)) as [e|u];
      [|contradiction].
    left. exists "general_error". split; [simpl; auto|].
    exact (replies_report_are_templates config (group_exceptions e) r Hin).
Qed.

Lemma replies_are_templates_or_text_witness :
  (exists name : string,
      In name template_names
      /\ template example_config name = inr (VStr "Something went wrong."))
  \/ (exists frs : list string,
         flatten (events (answers fails_after_text
                            (prompt_of bot_id hello_mention))) = inr frs
         /\ failure (answers fails_after_text
                       (prompt_of bot_id hello_mention)) = None
         /\ 0 < String.length (join nl frs) <= 4000
         /\ VStr "Something went wrong."
            = VStr (join nl (chars (join nl frs)))).
Proof.
  refine (replies_are_templates_or_text example_config bot_id
            (answers fails_after_text) hello_mention
            (VStr "Something went wrong.") _).
  simpl. left. reflexivity.
Defined.

(** ** The extracted prompt *)

Lemma lstrip_no_leading_space (s : string) :
  starts_with_space (lstrip s) = false.
Proof.
  induction s as [|c s IH]; [reflexivity|].
  simpl lstrip. destruct (is_space c) eqn:Hc; [exact IH|].
  simpl. exact Hc.
Qed.

Lemma rstrip_keeps_head (s : string) :
  starts_with_space s = false -> starts_with_space (rstrip s) = false.
Proof.
  destruct s as [|c s]; [reflexivity|].
  simpl. intros Hc.
  destruct (rstrip s); [rewrite Hc|]; simpl; exact Hc.
Qed.

Lemma rstrip_no_trailing_space (s : string) :
  ends_with_space (rstrip s) = false.
Proof.
  induction s as [|c s IH]; [reflexivity|].
  simpl rstrip.
  destruct (rstrip s) as [|c' r] eqn:Hr.
  - destruct (is_space c) eqn:Hc; [reflexivity|]. simpl. exact Hc.
  - exact IH.
Qed.

Lemma strip_trimmed (s : string) :
  starts_with_space (strip s) = false /\ ends_with_space (strip s) = false.
Proof.
  unfold strip. split.
  - apply rstrip_keeps_head. apply lstrip_no_leading_space.
  - apply rstrip_no_trailing_space.
Qed.

(** Whatever prompt reaches the assistant is the text extracted from the
    message, is not empty, and neither begins nor ends with a whitespace
    character. *)
Theorem queried_prompt_is_trimmed (config : pyval) (uid : Z)
  (query : string -> stream) (m : message) (p : string) :
  In p (queries (trace (on_message config uid query m))) ->
  p = strip (remove_all (mention_token uid) (content m))
  /\ p <> ""
  /\ starts_with_space p = false
  /\ ends_with_space p = false.
Proof.
  rewrite trace_on_message.
  destruct (Z.eqb (author m) uid); [contradiction|].
  destruct (existsb (Z.eqb uid) (mentions m)); [|contradiction].
  rewrite queries_handle_mention.
  destruct (String.eqb_spec (prompt_of uid m) "") as [He|Hne];
    [contradiction|].
  intros [<-|[]].
  split; [reflexivity|]. split; [exact Hne|].
  apply strip_trimmed.
Qed.

Lemma queried_prompt_is_trimmed_witness :
  "hello" = strip (remove_all (mention_token bot_id) (content hello_mention))
  /\ "hello" <> ""
  /\ starts_with_space "hello" = false
  /\ ends_with_space "hello" = false.
Proof.
  refine (queried_prompt_is_trimmed example_config bot_id (answers text_ab)
            hello_mention "hello" _).
  simpl. left. reflexivity.
Defined.

(** ** Removing the mention token *)

Lemma prefix_append (p s : string) : String.prefix p (p ++ s) = true.
Proof.
  induction p as [|c p IH]; simpl.
  - destruct s; reflexivity.
  - destruct (ascii_dec c c) as [_|Hne]; [exact IH|contradiction].
Qed.

Lemma remove_from_skip (pat a s : string) :
  remove_from pat (String.length a) (a ++ s) = remove_from pat 0 s.
Proof.
  induction a as [|c a IH]; simpl.
  - destruct s; reflexivity.
  - exact IH.
Qed.

Lemma remove_all_leading (c : ascii) (p s : string) :
  remove_all (String c p) (String c p ++ s) = remove_all (String c p) s.
Proof.
  unfold remove_all.
  change (String c p ++ s) with (String c (p ++ s)).
  cbn [remove_from].
  change (String c (p ++ s)) with (String c p ++ s).
  rewrite prefix_append.
  cbn [String.length]. rewrite Nat.sub_1_r. cbn [Nat.pred].
  apply remove_from_skip.
Qed.

Lemma string_has_cons (c x : ascii) (s : string) :
  string_has c (String x s) = false -> x <> c /\ string_has c s = false.
Proof.
  unfold string_has. simpl.
  destruct (Ascii.eqb_spec x c) as [->|Hne]; simpl; [discriminate|].
  intros H. split; [exact Hne|exact H].
Qed.

Lemma remove_all_passes (c : ascii) (p a t : string) :
  string_has c a = false ->
  remove_all (String c p) (a ++ t) = a ++ remove_all (String c p) t.
Proof.
  unfold remove_all.
  induction a as [|x a IH]; intros Hno; [reflexivity|].
  apply string_has_cons in Hno. destruct Hno as [Hx Hno].
  change (String x a ++ t) with (String x (a ++ t)).
  cbn [remove_from].
  replace (String.prefix (String c p) (String x (a ++ t))) with false.
  - rewrite (IH Hno). reflexivity.
  - simpl. destruct (ascii_dec c x) as [Heq|_]; [|reflexivity].
    exfalso. apply Hx. symmetry. exact Heq.
Qed.

Lemma append_empty_r (s : string) : s ++ "" = s.
Proof.
  induction s as [|c s IH]; simpl; [reflexivity|].
  rewrite IH; reflexivity.
Qed.

Lemma remove_all_empty (pat : string) : remove_all pat "" = "".
Proof. reflexivity. Qed.

(** A mention of the bot placed anywhere in a text that has no other
    [<] character is cut out and the rest is trimmed: the prompt for
    [a <@id> b] is the stripped concatenation of [a] and [b]. *)
Theorem prompt_drops_mention (uid who : Z) (listed : list Z)
  (a b : string) :
  string_has "<"%char a = false ->
  string_has "<"%char b = false ->
  prompt_of uid (mkMessage who (a ++ mention_token uid ++ b) listed)
  = strip (a ++ b).
Proof.
  intros Ha Hb. unfold prompt_of. cbn [content]. f_equal.
  change (mention_token uid)
    with (String "<"%char (String "@"%char (str_of_int uid ++ ">"))).
  rewrite (remove_all_passes _ _ a _ Ha).
  rewrite remove_all_leading.
  rewrite <- (append_empty_r b) at 1.
  rewrite (remove_all_passes _ _ b "" Hb).
  rewrite remove_all_empty, append_empty_r. reflexivity.
Qed.

Lemma prompt_drops_mention_witness :
  prompt_of bot_id
    (mkMessage 7%Z ("hi " ++ mention_token bot_id ++ " there  ") [42%Z])
  = strip ("hi " ++ " there  ").
Proof.
  refine (prompt_drops_mention bot_id 7%Z [42%Z] "hi " " there  " _ _);
    reflexivity.
Defined.

(** A text with no [<] character is passed on unchanged apart from the
    trimming, whoever the bot is. *)
Theorem prompt_without_mention (uid : Z) (m : message) :
  string_has "<"%char (content m) = false ->
  prompt_of uid m = strip (content m).
Proof.
  intros Hno. unfold prompt_of. f_equal.
  change (mention_token uid)
    with (String "<"%char (String "@"%char (str_of_int uid ++ ">"))).
  rewrite <- (append_empty_r (content m)) at 1.
  rewrite (remove_all_passes _ _ (content m) "" Hno).
  rewrite remove_all_empty, append_empty_r. reflexivity.
Qed.

Lemma prompt_without_mention_witness :
  prompt_of bot_id quiet_message = strip (content quiet_message).
Proof.
  refine (prompt_without_mention bot_id quiet_message _). reflexivity.
Defined.

(** ** Further properties of the flattener *)

Lemma flatten_content_cons (b : block) (bs : list block) :
  flatten_content (b :: bs) []
  = match flatten_block b with
    | inl e => inl e
    | inr f1 =>
        match flatten_content bs [] with
        | inl e => inl e
        | inr f2 => inr (f1 ++ f2)%list
        end
    end.
Proof.
  simpl. destruct (flatten_block b) as [e|f1]; [reflexivity|].
  apply flatten_content_acc.
Qed.

Lemma flatten_cons (r : response) (rs : list response) :
  flatten (r :: rs)
  = match flatten_response r [] with
    | inl e => inl e
    | inr f1 =>
        match flatten rs with
        | inl e => inl e
        | inr f2 => inr (f1 ++ f2)%list
        end
    end.
Proof.
  unfold flatten at 1. rewrite outcome_consume_cons.
  destruct (flatten_response r []) as [e|f1]; [reflexivity|].
  apply outcome_consume_acc.
Qed.

Lemma flatten_nil : flatten [] = inr [].
Proof. reflexivity. Qed.

Lemma length_flatten_block (b : block) (frs : list string) :
  flatten_block b = inr frs -> length frs = block_fragments b.
Proof.
  destruct b as [text|name input|]; simpl.
  - intros H; injection H as <-; reflexivity.
  - destruct (String.eqb name "Bash").
    + destruct (dict_get "command" input); [|discriminate].
      intros H; injection H as <-; reflexivity.
    + intros H; injection H as <-; reflexivity.
  - intros H; injection H as <-; reflexivity.
Qed.

Lemma length_flatten_content (bs : list block) (frs : list string) :
  flatten_content bs [] = inr frs ->
  length frs = list_sum (map block_fragments bs).
Proof.
  revert frs.
  induction bs as [|b bs IH]; intros frs.
  - simpl. intros H; injection H as <-; reflexivity.
  - rewrite flatten_content_cons.
    destruct (flatten_block b) as [e|f1] eqn:Hb; [discriminate|].
    destruct (flatten_content bs []) as [e|f2]; [discriminate|].
    intros H; injection H as <-.
    rewrite length_app, (length_flatten_block b f1 Hb), (IH f2 eq_refl).
    reflexivity.
Qed.

(** When flattening succeeds, the number of fragments is one per text
    block plus two per tool-use block of the assistant messages; other
    blocks and other events add none. *)
Theorem flatten_fragment_count (rs : list response) (frs : list string) :
  flatten rs = inr frs ->
  length frs = list_sum (map response_fragments rs).
Proof.
  revert frs.
  induction rs as [|r rs IH]; intros frs.
  - rewrite flatten_nil. intros H; injection H as <-; reflexivity.
  - rewrite flatten_cons.
    destruct (flatten_response r []) as [e|f1] eqn:Hr; [discriminate|].
    destruct (flatten rs) as [e|f2]; [discriminate|].
    intros H; injection H as <-.
    rewrite length_app, (IH f2 eq_refl). simpl. f_equal.
    destruct r as [bs|]; simpl in Hr.
    + exact (length_flatten_content bs f1 Hr).
    + injection Hr as <-; reflexivity.
Qed.

Lemma flatten_fragment_count_witness :
  length ["a"; "**Bash**"; fence ++ nl ++ "$ ls # list" ++ nl ++ fence;
          "**Write**";
          fence ++ nl ++ json_dumps (VDict [("path", VStr "x.txt")])
          ++ nl ++ fence]
  = list_sum (map response_fragments (events mixed_stream)).
Proof.
  refine (flatten_fragment_count (events mixed_stream) _ _).
  reflexivity.
Defined.

Lemma flatten_block_renders (b : block) :
  match flatten_block b with
  | inr _ => block_renders b = true
  | inl e => e = KeyError "command" /\ block_renders b = false
  end.
Proof.
  destruct b as [text|name input|]; simpl; try reflexivity.
  destruct (String.eqb name "Bash"); simpl; [|reflexivity].
  destruct (dict_get "command" input); [reflexivity|].
  split; reflexivity.
Qed.

Lemma flatten_content_renders (bs : list block) :
  match flatten_content bs [] with
  | inr _ => forallb block_renders bs = true
  | inl e => e = KeyError "command" /\ forallb block_renders bs = false
  end.
Proof.
  induction bs as [|b bs IH]; [reflexivity|].
  rewrite flatten_content_cons. simpl forallb.
  pose proof (flatten_block_renders b) as Hb.
  destruct (flatten_block b) as [e|f1].
  - destruct Hb as [-> Hb]. rewrite Hb. split; reflexivity.
  - rewrite Hb. simpl.
    destruct (flatten_content bs []) as [e|f2]; exact IH.
Qed.

(** Flattening fails exactly when some assistant message holds a Bash
    tool use without [command], and then always with [KeyError] for that
    key; every other sequence of events flattens. *)
Theorem flatten_fails_only_on_bash_without_command (rs : list response) :
  match flatten rs with
  | inr _ => forallb response_renders rs = true
  | inl e => e = KeyError "command" /\ forallb response_renders rs = false
  end.
Proof.
  induction rs as [|r rs IH]; [reflexivity|].
  rewrite flatten_cons. simpl forallb.
  assert (Hr : match flatten_response r [] with
               | inr _ => response_renders r = true
               | inl e => e = KeyError "command" /\ response_renders r = false
               end).
  { destruct r as [bs|]; simpl; [apply flatten_content_renders|reflexivity]. }
  destruct (flatten_response r []) as [e|f1].
  - destruct Hr as [-> Hr]. rewrite Hr. split; reflexivity.
  - rewrite Hr. simpl.
    destruct (flatten rs) as [e|f2]; exact IH.
Qed.

Lemma flatten_content_skips_other (bs : list block) :
  flatten_content (filter is_inspected_block bs) [] = flatten_content bs [].
Proof.
  induction bs as [|b bs IH]; [reflexivity|].
  destruct b as [text|name input|].
  - cbn [filter is_inspected_block]. rewrite !flatten_content_cons, IH.
    reflexivity.
  - cbn [filter is_inspected_block]. rewrite !flatten_content_cons, IH.
    reflexivity.
  - cbn [filter is_inspected_block]. rewrite flatten_content_cons, IH.
    simpl flatten_block.
    destruct (flatten_content bs []); reflexivity.
Qed.

(** Events that are not assistant messages, and blocks that are neither
    text nor tool use, have no influence on the fragments: dropping them
    from the stream gives the same result. *)
Theorem flatten_ignores_other_variants (rs : list response) :
  flatten (filter is_assistant_message rs) = flatten rs
  /\ flatten (map (fun r =>
                     match r with
                     | AssistantMessage bs =>
                         AssistantMessage (filter is_inspected_block bs)
                     | OtherMessage => OtherMessage
                     end) rs)
     = flatten rs.
Proof.
  split.
  - induction rs as [|r rs IH]; [reflexivity|].
    destruct r as [bs|].
    + cbn [filter is_assistant_message]. rewrite !flatten_cons, IH.
      reflexivity.
    + cbn [filter is_assistant_message]. rewrite flatten_cons, IH.
      simpl flatten_response.
      destruct (flatten rs); reflexivity.
  - induction rs as [|r rs IH]; [reflexivity|].
    cbn [map]. rewrite !flatten_cons, IH.
    destruct r as [bs|]; [|reflexivity].
    simpl flatten_response. rewrite flatten_content_skips_other.
    reflexivity.
Qed.

(** ** Further properties of start-up *)

Lemma main_started_inv (logging : logging_module)
  (loaded : option pyval) (config token : pyval) :
  main logging loaded = Started config token ->
  loaded = Some config
  /\ truthy config = true
  /\ (exists discord : pyval,
         subscript config "discord" = inr discord
         /\ subscript discord "bot_token" = inr token)
  /\ truthy token = true
  /\ token <> VStr "your_discord_bot_token_here"
  /\ setup_logging logging config = inr tt
  /\ (exists built : pyval * claude_options, bot_init config = inr built).
Proof.
  unfold main. intros H.
  destruct loaded as [c|]; [|discriminate].
  destruct (truthy c) eqn:Htr; cbn [negb] in H; [|discriminate].
  destruct (method_get c "claude_code") as [e|cc]; [discriminate|].
  match type of H with
  | match ?step with _ => _ end = _ => destruct step as [e|u]; [discriminate|]
  end.
  destruct (setup_logging logging c) as [e|[]] eqn:Hlog; [discriminate|].
  destruct (subscript c "discord") as [e|discord] eqn:Hd; [discriminate|].
  destruct (subscript discord "bot_token") as [e|tok] eqn:Ht; [discriminate|].
  match type of H with
  | (if ?guard then _ else _) = _ =>
      destruct guard eqn:Hguard; [discriminate|]
  end.
  destruct (bot_init c) as [e|built] eqn:Hb; [discriminate|].
  injection H as <- <-.
  apply orb_false_iff in Hguard. destruct Hguard as [Htruthy Hplace].
  apply negb_false_iff in Htruthy.
  split; [reflexivity|]. split; [exact Htr|].
  split; [exists discord; split; [exact Hd|exact Ht]|].
  split; [exact Htruthy|].
  split.
  - intros ->. simpl in Hplace. discriminate.
  - split; [exact Hlog|exists built; exact Hb].
Qed.

(** Whatever the logging module does, [main] reaches [bot.start] only
    with the loaded configuration, a token that is the configured
    [bot_token], is not empty and is not the placeholder of the example
    file, after [setup_logging] returned and the bot was constructed. *)
Theorem main_starts_only_configured (logging : logging_module)
  (loaded : option pyval) (config token : pyval) :
  main logging loaded = Started config token ->
  loaded = Some config
  /\ truthy config = true
  /\ (exists discord : pyval,
         subscript config "discord" = inr discord
         /\ subscript discord "bot_token" = inr token)
  /\ truthy token = true
  /\ token <> VStr "your_discord_bot_token_here"
  /\ setup_logging logging config = inr tt
  /\ (exists built : pyval * claude_options, bot_init config = inr built).
Proof. exact (main_started_inv logging loaded config token). Qed.

Lemma main_starts_only_configured_witness :
  Some example_config = Some example_config
  /\ truthy example_config = true
  /\ (exists discord : pyval,
         subscript example_config "discord" = inr discord
         /\ subscript discord "bot_token" = inr (VStr "token-123"))
  /\ truthy (VStr "token-123") = true
  /\ VStr "token-123" <> VStr "your_discord_bot_token_here"
  /\ setup_logging info_logging example_config = inr tt
  /\ (exists built : pyval * claude_options,
         bot_init example_config = inr built).
Proof.
  refine (main_starts_only_configured info_logging (Some example_config)
            example_config (VStr "token-123") _).
  reflexivity.
Defined.

(** When the configuration file is missing, is not valid YAML, or holds
    an empty document, [main] neither starts the bot nor returns: the
    error branch reads [logger] before it is bound and raises
    [UnboundLocalError]. *)
Theorem main_without_config_raises (logging : logging_module)
  (config_path : string) (file : file_state)
  (safe_load : string -> yaml_loaded) :
  file = FileNotFound
  \/ (exists text : string,
         file = FileText text
         /\ ((exists problem : string, safe_load text = YAMLError problem)
             \/ (exists v : pyval,
                    safe_load text = YAMLValue v /\ truthy v = false))) ->
  main logging (snd (load_config config_path file safe_load))
  = Crashed (Exc "UnboundLocalError" "logger").
Proof.
  intros [->|(text & -> & [(problem & Hl)|(v & Hl & Hv)])].
  - reflexivity.
  - simpl. rewrite Hl. reflexivity.
  - simpl. rewrite Hl. simpl. rewrite Hv. reflexivity.
Qed.

Lemma main_without_config_raises_witness :
  main info_logging
    (snd (load_config "config.yaml" (FileText "") (parses_to VNone)))
  = Crashed (Exc "UnboundLocalError" "logger").
Proof.
  refine (main_without_config_raises info_logging "config.yaml" (FileText "")
            (parses_to VNone) _).
  right. exists "". split; [reflexivity|].
  right. exists VNone. split; reflexivity.
Defined.

Lemma bot_init_dict (d : pydict) (discord prefix : pyval) :
  dict_get "discord" d = Some discord ->
  subscript discord "prefix" = inr prefix ->
  bot_init (VDict d)
  = match get_default d "bot" (VDict []) with
    | VDict o =>
        inr (prefix,
             mkOptions
               (get_default o "system_prompt"
                  (VStr "You are a helpful Discord bot."))
               (get_default o "allowed_tools" (VList []))
               (get_default o "max_turns" VNone))
    | _ => inl (AttributeError "get")
    end.
Proof.
  intros Hd Hp. unfold bot_init, subscript at 1. rewrite Hd, Hp. reflexivity.
Qed.

(** Without a [bot] section, or with an empty one, the bot is built with
    the default options: the default system prompt, no allowed tool and
    no bound on the turns. *)
Theorem bot_section_defaults (d : pydict) (discord prefix : pyval) :
  dict_get "discord" d = Some discord ->
  subscript discord "prefix" = inr prefix ->
  dict_get "bot" d = None \/ dict_get "bot" d = Some (VDict []) ->
  bot_init (VDict d) = inr (prefix, default_options).
Proof.
  intros Hd Hp Hb.
  rewrite (bot_init_dict d discord prefix Hd Hp). unfold get_default at 1.
  destruct Hb as [Hb|Hb]; rewrite Hb; reflexivity.
Qed.

Lemma bot_section_defaults_witness :
  bot_init example_config = inr (VStr "!", default_options).
Proof.
  refine (bot_section_defaults
            [ ("discord", example_discord); ("logging", example_logging);
              ("messages", example_messages) ]
            example_discord (VStr "!") _ _ _).
  - reflexivity.
  - reflexivity.
  - left. reflexivity.
Defined.

(** A [bot] key that holds anything but a mapping (for instance nothing
    at all, a YAML null) is not replaced by the default: the construction
    of the bot raises and [main] never starts it. *)
Theorem bot_section_must_be_mapping (logging : logging_module)
  (d : pydict) (v : pyval) :
  dict_get "bot" d = Some v ->
  (forall o : pydict, v <> VDict o) ->
  (forall built : pyval * claude_options, bot_init (VDict d) <> inr built)
  /\ started (main logging (Some (VDict d))) = false.
Proof.
  intros Hb Hv.
  assert (Hfail : forall built : pyval * claude_options,
             bot_init (VDict d) <> inr built).
  { intros built. unfold bot_init.
    destruct (subscript (VDict d) "discord") as [e|discord]; [discriminate|].
    destruct (subscript discord "prefix") as [e|prefix]; [discriminate|].
    unfold get_default at 1. rewrite Hb.
    destruct v as [| | | | |o|]; try discriminate.
    exfalso. exact (Hv o eq_refl). }
  split; [exact Hfail|].
  destruct (main logging (Some (VDict d))) as [|e|c tok] eqn:Hm;
    try reflexivity.
  apply main_started_inv in Hm.
  destruct Hm as (Hc & _ & _ & _ & _ & _ & (built & Hbuilt)).
  injection Hc as <-. exfalso. exact (Hfail built Hbuilt).
Qed.

Lemma bot_section_must_be_mapping_witness :
  (forall built : pyval * claude_options,
      bot_init config_with_empty_bot <> inr built)
  /\ started (main info_logging (Some config_with_empty_bot)) = false.
Proof.
  refine (bot_section_must_be_mapping info_logging
            [ ("discord", example_discord); ("logging", example_logging);
              ("bot", VNone) ]
            VNone _ _).
  - reflexivity.
  - intros o. discriminate.
Defined.

(** ** Templates and start-up *)

(** A plain exception raised by the body of the [try] is the one error
    record of the handling, whether or not the handler can then reply. *)
Lemma handle_mention_logs_plain (config : pyval) (uid : Z)
  (query : string -> stream) (m : message) (e : exc) :
  outcome (respond config uid query m) = inl e ->
  group_exceptions e = [e] ->
  errors (trace (handle_mention config uid query m)) = [e].
Proof.
  intros He Hg.
  destruct (respond_replies config uid query m) as [Herr _].
  rewrite trace_handle_mention, He, Hg, errors_app, Herr.
  simpl report.
  destruct (template config "general_error"); reflexivity.
Qed.

Lemma respond_raises_in_policy (config : pyval) (uid : Z)
  (query : string -> stream) (m : message) (frs : list string) (e : exc) :
  prompt_of uid m <> "" ->
  flatten (events (query (prompt_of uid m))) = inr frs ->
  failure (query (prompt_of uid m)) = None ->
  outcome (reply_policy config (join nl frs)) = inl e ->
  outcome (respond config uid query m) = inl e.
Proof.
  intros Hp Hfl Hfail Hpol.
  rewrite (outcome_respond_query config uid query m Hp).
  rewrite (run_query_success (query (prompt_of uid m)) frs Hfl Hfail).
  exact Hpol.
Qed.

(** C5 as stated fails: the configuration with no [messages] section
    passes every start-up check and the bot starts, with the logging
    module of the examples and with every logging module that knows the
    level [INFO] and accepts the configured format; the absence shows for
    the first time as a [KeyError] while a mention is handled, which is
    then neither answered nor contained. *)
Lemma C5_starts_without_templates :
  started (main info_logging (Some config_without_messages)) = true
  /\ (forall (logging : logging_module) (level : attribute logging),
        getattr logging "INFO" = inr level ->
        basicConfig logging level (VStr "%(message)s") = inr tt ->
        started (main logging (Some config_without_messages)) = true)
  /\ trace (on_message config_without_messages bot_id (answers text_ab)
              bare_mention)
     = [Error (KeyError "messages")]
  /\ outcome (on_message config_without_messages bot_id (answers text_ab)
                bare_mention)
     = inl (KeyError "messages").
Proof.
  split; [reflexivity|]. split; [|split; reflexivity].
  intros logging level Hlevel Hconfig.
  unfold main, setup_logging. simpl. rewrite Hlevel, Hconfig. reflexivity.
Qed.

(** C5 (amended).  The message templates are not checked at start-up:
    whatever the logging module, configurations that agree outside the
    [messages] section start or fail to start alike.  An absent template
    is first noticed while a message is handled.  For [empty_message],
    [long_response_warning] and [empty_response] the lookup raises in
    the branch that selects the template (empty prompt, joined text
    longer than 4000, empty joined text) and the error is logged at the
    fault boundary.  For [general_error] the lookup raises inside the
    handler, while a failure is being reported: the lookup error is not
    logged, no reply is sent, and it leaves [handle_mention]. *)
Theorem C5_templates_first_missed_while_handling
  (logging : logging_module) (d d' : pydict) :
  (forall k : string, k <> "messages" -> dict_get k d = dict_get k d') ->
  started (main logging (Some (VDict d')))
  = started (main logging (Some (VDict d)))
  /\ (forall (uid : Z) (query : string -> stream) (m : message) (e : exc),
        prompt_of uid m = "" ->
        template (VDict d') "empty_message" = inl e ->
        errors (trace (handle_mention (VDict d') uid query m)) = [e]
        /\ queries (trace (handle_mention (VDict d') uid query m)) = [])
  /\ (forall (uid : Z) (query : string -> stream) (m : message)
             (frs : list string) (e : exc),
        prompt_of uid m <> "" ->
        flatten (events (query (prompt_of uid m))) = inr frs ->
        failure (query (prompt_of uid m)) = None ->
        4000 < String.length (join nl frs) ->
        template (VDict d') "long_response_warning" = inl e ->
        errors (trace (handle_mention (VDict d') uid query m)) = [e])
  /\ (forall (uid : Z) (query : string -> stream) (m : message)
             (frs : list string) (e : exc),
        prompt_of uid m <> "" ->
        flatten (events (query (prompt_of uid m))) = inr frs ->
        failure (query (prompt_of uid m)) = None ->
        String.length (join nl frs) = 0 ->
        template (VDict d') "empty_response" = inl e ->
        errors (trace (handle_mention (VDict d') uid query m)) = [e])
  /\ (forall (uid : Z) (query : string -> stream) (m : message)
             (caught first k : exc) (rest : list exc),
        outcome (respond (VDict d') uid query m) = inl caught ->
        group_exceptions caught = first :: rest ->
        template (VDict d') "general_error" = inl k ->
        errors (trace (handle_mention (VDict d') uid query m)) = [first]
        /\ replies (trace (handle_mention (VDict d') uid query m)) = []
        /\ outcome (handle_mention (VDict d') uid query m)
           = inl (reraise_star caught k)).
Proof.
  intros Hagree.
  split; [symmetry; apply started_main_messages_irrelevant; exact Hagree|].
  split; [|split; [|split]].
  - intros uid query m e Hp Ht.
    assert (Hr : respond (VDict d') uid query m = ([], inl e)).
    { rewrite (respond_empty_prompt (VDict d') uid query m Hp), Ht.
      reflexivity. }
    split.
    + apply handle_mention_logs_plain; [rewrite Hr; reflexivity|].
      exact (template_error_plain (VDict d') "empty_message" e Ht).
    + rewrite queries_handle_mention.
      apply String.eqb_eq in Hp. rewrite Hp. reflexivity.
  - intros uid query m frs e Hp Hfl Hfail HL Ht.
    apply handle_mention_logs_plain;
      [|exact (template_error_plain (VDict d') "long_response_warning" e Ht)].
    apply (respond_raises_in_policy (VDict d') uid query m frs e Hp Hfl Hfail).
    rewrite (reply_policy_long (VDict d') (join nl frs) HL), Ht. reflexivity.
  - intros uid query m frs e Hp Hfl Hfail HL Ht.
    apply handle_mention_logs_plain;
      [|exact (template_error_plain (VDict d') "empty_response" e Ht)].
    apply (respond_raises_in_policy (VDict d') uid query m frs e Hp Hfl Hfail).
    assert (Hs : join nl frs = "")
      by (destruct (join nl frs); [reflexivity|discriminate]).
    rewrite Hs, reply_policy_empty, Ht. reflexivity.
  - intros uid query m caught first k rest Hc Hg Hk.
    exact (handler_fails (VDict d') uid query m caught first k rest Hc Hg Hk).
Qed.

Lemma C5_templates_first_missed_while_handling_witness :
  started (main info_logging (Some config_without_messages))
  = started (main info_logging (Some example_config))
  /\ errors (trace (handle_mention config_without_messages bot_id
                      (answers text_ab) bare_mention))
     = [KeyError "messages"]
  /\ errors (trace (handle_mention config_without_messages bot_id
                      (answers long_answer) hello_mention))
     = [KeyError "messages"]
  /\ errors (trace (handle_mention config_without_messages bot_id
                      (answers text_empty) hello_mention))
     = [KeyError "messages"]
  /\ outcome (handle_mention config_without_messages bot_id
                (answers fails_after_text) hello_mention)
     = inl (KeyError "messages").
Proof.
  assert (Hagree : forall k : string,
             k <> "messages" ->
             dict_get k [ ("discord", example_discord);
                          ("logging", example_logging);
                          ("messages", example_messages) ]
             = dict_get k [ ("discord", example_discord);
                            ("logging", example_logging) ]).
  { intros k Hk. simpl.
    destruct (String.eqb k "discord"); [reflexivity|].
    destruct (String.eqb k "logging"); [reflexivity|].
    destruct (String.eqb_spec k "messages"); [contradiction|reflexivity]. }
  pose (T := C5_templates_first_missed_while_handling info_logging
               [ ("discord", example_discord); ("logging", example_logging);
                 ("messages", example_messages) ]
               [ ("discord", example_discord); ("logging", example_logging) ]
               Hagree).
  split; [exact (proj1 T)|].
  split.
  { refine (proj1 (proj1 (proj2 T) bot_id (answers text_ab) bare_mention
                     (KeyError "messages") _ _)); reflexivity. }
  split.
  { refine (proj1 (proj2 (proj2 T)) bot_id (answers long_answer)
              hello_mention [repeat_char "a"%char 4001]
              (KeyError "messages") _ _ _ _ _).
    - vm_compute. discriminate.
    - vm_compute. reflexivity.
    - reflexivity.
    - apply Nat.ltb_lt. vm_compute. reflexivity.
    - reflexivity. }
  split.
  { refine (proj1 (proj2 (proj2 (proj2 T))) bot_id (answers text_empty)
              hello_mention [""] (KeyError "messages") _ _ _ _ _).
    - vm_compute. discriminate.
    - reflexivity.
    - reflexivity.
    - reflexivity.
    - reflexivity. }
  refine (proj2 (proj2 (proj2 (proj2 (proj2 (proj2 T))) bot_id
                          (answers fails_after_text) hello_mention
                          connection_error connection_error
                          (KeyError "messages") [] _ _ _)));
    reflexivity.
Defined.
